(** * json2csv: flattening nested JSON into key/value rows

    A shallow embedding of [src/json2csv.py] and the properties of its
    flattening core: key composition, key validation, index rendering,
    the per-file orchestration of [run] and the CSV writer.

    Conventions of the embedding.
    - A Python [str] is a [string]; one [ascii] stands for one character,
      so [String.length] is Python's [len] (keys are taken in Latin-1).
    - A generator is modelled by its trace: the values it yields, in
      order, and the exception that ends it, if any.
    - Exceptions carry the class and a structured message standing for the
      f-string of the source. *)

From Stdlib Require Import String Ascii List Bool Arith ZArith Lia.
From Stdlib Require Import DecimalString DecimalNat.
Import ListNotations.
Open Scope list_scope.
Open Scope string_scope.

(** ** Constants (lines 57-63 of the source) *)

Definition PARENT_KEY : string := "".
Definition KEY_SEPARATOR : string := "_".
Definition INDEX_FORMAT : string := "{:04d}".
Definition CSV_HEADERS : list string := ["key"; "value"].
Definition MAX_KEY_LENGTH : nat := 256.

Definition LF : ascii := Ascii.ascii_of_nat 10.
Definition CR : ascii := Ascii.ascii_of_nat 13.
Definition COMMA : ascii := ","%char.

(** ** Python values *)

(** A dictionary key: [json.load] only produces [str] keys, but
    [flatten_json] guards against the others. *)
Inductive pykey : Type :=
| KStr (s : string)
| KOther (type_name : string).

(** The values [flatten_json] can receive.  [PyFloat] carries the IEEE-754
    bit pattern, which flattening never inspects; [PyOther] is a value of
    any type outside JSON, known by the name of its type.  A [dict] is an
    association list in insertion order. *)
Unset Elimination Schemes.
Inductive pyvalue : Type :=
| PyNone
| PyBool (b : bool)
| PyInt (n : Z)
| PyFloat (bits : Z)
| PyStr (s : string)
| PyDict (items : list (pykey * pyvalue))
| PyList (items : list pyvalue)
| PyOther (type_name : string).
Set Elimination Schemes.

(** [type(x).__name__] *)
Definition type_name (x : pyvalue) : string :=
  match x with
  | PyNone => "NoneType"
  | PyBool _ => "bool"
  | PyInt _ => "int"
  | PyFloat _ => "float"
  | PyStr _ => "str"
  | PyDict _ => "dict"
  | PyList _ => "list"
  | PyOther t => t
  end.

(** [isinstance(data, (str, int, float, bool)) or data is None] *)
Definition is_primitive (x : pyvalue) : bool :=
  match x with
  | PyNone | PyBool _ | PyInt _ | PyFloat _ | PyStr _ => true
  | _ => false
  end.

(** ** Exceptions *)

Inductive message : Type :=
| Keys_must_be_str (got : string)
| Key_too_long (new_key : string)
| Key_has_invalid_characters (new_key : string)
| Unsupported_data_type (got : string)
| Must_be_dicts (got : string)
| JSON_must_be_an_object_or_array_of_objects
| JSON_must_be_object_or_array (got : string)
| Invalid_JSON
| Encoding_error
| No_valid_data_to_write
| Separator_cannot_be_empty_a_comma_or_a_newline
| Invalid_index_format
| Format_string_error
| Raised_by_the_library.

(** The exception classes that occur.  [OutsideFragment] is not Python's:
    it is what [py_format] answers on a format string that uses a feature
    of the format language it does not model. *)
Inductive exn : Type :=
| ValueError (m : message)
| IndexError
| KeyError
| IOError
| FileNotFoundError
| OutsideFragment.

(** ** Generators as traces *)

Record generator (A : Type) : Type := Gen {
  yielded : list A;
  raised : option exn
}.
Arguments Gen {A} _ _.
Arguments yielded {A} _.
Arguments raised {A} _.

Definition stop {A} : generator A := Gen [] None.
Definition yield {A} (x : A) : generator A := Gen [x] None.
Definition raise {A} (e : exn) : generator A := Gen [] (Some e).

(** Sequencing: the second part runs only when the first one returns. *)
Definition gseq {A} (g1 g2 : generator A) : generator A :=
  match raised g1 with
  | Some e => Gen (yielded g1) (Some e)
  | None => Gen (yielded g1 ++ yielded g2) (raised g2)
  end.

Declare Scope gen_scope.
Delimit Scope gen_scope with gen.
Notation "g1 ;; g2" := (gseq g1 g2)
  (at level 61, right associativity) : gen_scope.
Open Scope gen_scope.

(** ** Strings *)

(** [c in s] for a one-character [c] *)
Fixpoint char_in (c : ascii) (s : string) : bool :=
  match s with
  | EmptyString => false
  | String d rest => Ascii.eqb c d || char_in c rest
  end.

(** [any(c in s for c in {",", "\n", "\r"})] *)
Definition has_csv_breaking_char (s : string) : bool :=
  existsb (fun c => char_in c s) [COMMA; LF; CR].

(** [str(index)] for a non-negative [int] *)
Definition str (index : nat) : string :=
  NilEmpty.string_of_uint (Nat.to_uint index).

(** [bool(s)] for a [str]: the empty string is falsy *)
Definition truthy (s : string) : bool :=
  match s with
  | EmptyString => false
  | _ => true
  end.

(** [s.replace(old, new)] for one-character [old] and [new] *)
Fixpoint replace (old new : ascii) (s : string) : string :=
  match s with
  | EmptyString => EmptyString
  | String c rest =>
      String (if Ascii.eqb c old then new else c) (replace old new rest)
  end.

(** ** [str.format] with one non-negative [int] argument

    [index_format.format(index)] is Python's, not this repository's.
    [flatten_json] is defined over any [str_format]; [py_format] below
    gives Python's behaviour on the fragment of the format language that
    the concrete scenarios use. *)

Inductive format_result : Type :=
| Rendered (s : string)
| FormatRaises (e : exn).

(** Automatic field numbering of [str.format] *)
Inductive auto_number : Type :=
| ANS_INIT
| ANS_AUTO (an_field_number : nat)
| ANS_MANUAL.

Definition is_digit (c : ascii) : bool :=
  let n := Ascii.nat_of_ascii c in ((48 <=? n) && (n <=? 57))%nat.

Fixpoint all_digits (s : string) : bool :=
  match s with
  | EmptyString => true
  | String c rest => is_digit c && all_digits rest
  end.

(** Value of a string of decimal digits, most significant first *)
Fixpoint get_integer_from (acc : nat) (s : string) : nat :=
  match s with
  | EmptyString => acc
  | String c rest => get_integer_from (10 * acc + (Ascii.nat_of_ascii c - 48)) rest
  end.
Definition get_integer (s : string) : nat := get_integer_from 0 s.

Fixpoint fill (n : nat) (c : ascii) : string :=
  match n with
  | O => EmptyString
  | S m => String c (fill m c)
  end.

(** Right-justify [s] in [width] characters *)
Definition pad_left (c : ascii) (width : nat) (s : string) : string :=
  fill (width - String.length s) c ++ s.

(** [format(index, spec)] for the specs [[0][width][d]]: decimal digits,
    padded on the left to [width], with zeros under the [0] flag and with
    spaces otherwise.  Widths are read up to four digits. *)
Definition format_int (spec : string) (index : nat) : format_result :=
  let zero := match spec with String "0" _ => true | _ => false end in
  let spec1 := match spec with String "0" rest => rest | _ => spec end in
  let body :=
    match List.rev (list_ascii_of_string spec1) with
    | "d"%char :: w => string_of_list_ascii (List.rev w)
    | _ => spec1
    end in
  if all_digits body && (String.length body <=? 4)%nat then
    Rendered (pad_left (if zero then "0"%char else " "%char)
                       (get_integer body) (str index))
  else FormatRaises OutsideFragment.

(** One replacement field [{name:spec}], the field numbering being [an]:
    the argument is looked up first, then rendered. *)
Definition render_field (an : auto_number) (name spec : string) (index : nat)
  : format_result * auto_number :=
  match name with
  | EmptyString =>
      match an with
      | ANS_MANUAL => (FormatRaises (ValueError Format_string_error), an)
      | ANS_INIT => (format_int spec index, ANS_AUTO 1)
      | ANS_AUTO O => (format_int spec index, ANS_AUTO 1)
      | ANS_AUTO (S n) => (FormatRaises IndexError, ANS_AUTO (S (S n)))
      end
  | _ =>
      if all_digits name then
        if (String.length name <=? 9)%nat then
          match an with
          | ANS_AUTO _ => (FormatRaises (ValueError Format_string_error), an)
          | _ =>
              match get_integer name with
              | O => (format_int spec index, ANS_MANUAL)
              | S _ => (FormatRaises IndexError, ANS_MANUAL)
              end
          end
        else (FormatRaises OutsideFragment, an)
      else (FormatRaises KeyError, an)
  end.

Inductive scan : Type :=
| InText
| InName (name : string)
| InSpec (name spec : string).

Definition emit (c : ascii) (r : format_result) : format_result :=
  match r with
  | Rendered s => Rendered (String c s)
  | FormatRaises e => FormatRaises e
  end.

Definition emits (s : string) (r : format_result) : format_result :=
  match r with
  | Rendered t => Rendered (s ++ t)
  | FormatRaises e => FormatRaises e
  end.

Definition snoc (s : string) (c : ascii) : string := s ++ String c EmptyString.

(** The scanner of [str.format]: literal text with the [{{] and [}}]
    escapes, and replacement fields made of an argument name and an
    optional [:spec].  Conversions ([!r]), attribute and item access
    ([.], [[]) and nested fields are outside the fragment. *)
Fixpoint format_scan (st : scan) (an : auto_number) (index : nat) (s : string)
  : format_result :=
  match st with
  | InText =>
      match s with
      | EmptyString => Rendered EmptyString
      | String "{" (String "{" rest) => emit "{" (format_scan InText an index rest)
      | String "}" (String "}" rest) => emit "}" (format_scan InText an index rest)
      | String "}" _ => FormatRaises (ValueError Format_string_error)
      | String "{" EmptyString => FormatRaises (ValueError Format_string_error)
      | String "{" rest => format_scan (InName EmptyString) an index rest
      | String c rest => emit c (format_scan InText an index rest)
      end
  | InName name =>
      match s with
      | EmptyString => FormatRaises (ValueError Format_string_error)
      | String "{" _ => FormatRaises (ValueError Format_string_error)
      | String "}" rest =>
          match render_field an name EmptyString index with
          | (Rendered t, an') => emits t (format_scan InText an' index rest)
          | (FormatRaises e, _) => FormatRaises e
          end
      | String ":" rest => format_scan (InSpec name EmptyString) an index rest
      | String "!" _ | String "." _ | String "[" _ => FormatRaises OutsideFragment
      | String c rest => format_scan (InName (snoc name c)) an index rest
      end
  | InSpec name spec =>
      match s with
      | EmptyString => FormatRaises (ValueError Format_string_error)
      | String "{" _ => FormatRaises OutsideFragment
      | String "}" rest =>
          match render_field an name spec index with
          | (Rendered t, an') => emits t (format_scan InText an' index rest)
          | (FormatRaises e, _) => FormatRaises e
          end
      | String c rest => format_scan (InSpec name (snoc spec c)) an index rest
      end
  end.

(** [index_format.format(index)] *)
Definition py_format (index_format : string) (index : nat) : format_result :=
  format_scan InText ANS_INIT index index_format.

(** ** JSON processing (lines 173-235 of the source) *)

Definition row : Type := (string * pyvalue)%type.

(** [f"{parent_key}{separator}{key}" if parent_key else key] (line 186) *)
Definition new_key (parent_key separator key : string) : string :=
  if truthy parent_key then parent_key ++ separator ++ key else key.

(** [f"{parent_key}{separator}{idx}" if parent_key else idx] (line 205) *)
Definition idx_key (parent_key separator idx : string) : string :=
  if truthy parent_key then parent_key ++ separator ++ idx else idx.

Section Flatten.

(** Python's [str.format], applied to the index format and one index *)
Variable str_format : string -> nat -> format_result.

(** [flatten_json] (lines 173-212).  The [try] around the rendering of
    the index catches [ValueError] only; any other exception leaves the
    generator. *)
Fixpoint flatten_json (data : pyvalue)
    (parent_key separator index_format : string) (validate_keys : bool)
    {struct data} : generator row :=
  match data with
  | PyDict items =>
      (fix for_items (l : list (pykey * pyvalue)) : generator row :=
         match l with
         | [] => stop
         | (KOther t, _) :: _ => raise (ValueError (Keys_must_be_str t))
         | (KStr key, value) :: rest =>
             let new_key := new_key parent_key separator key in
             let recurse :=
               flatten_json value new_key separator index_format validate_keys ;;
               for_items rest in
             if validate_keys then
               if (MAX_KEY_LENGTH <? String.length new_key)%nat then
                 raise (ValueError (Key_too_long new_key))
               else if has_csv_breaking_char new_key then
                 raise (ValueError (Key_has_invalid_characters new_key))
               else recurse
             else recurse
         end) items
  | PyList items =>
      (fix for_enumerate (index : nat) (l : list pyvalue) : generator row :=
         match l with
         | [] => stop
         | item :: rest =>
             let continue idx :=
               let idx_key := idx_key parent_key separator idx in
               flatten_json item idx_key separator index_format validate_keys ;;
               for_enumerate (S index) rest in
             match str_format index_format index with
             | Rendered idx => continue idx
             | FormatRaises (ValueError _) => continue (str index)
             | FormatRaises e => raise e
             end
         end) 0 items
  | PyNone | PyBool _ | PyInt _ | PyFloat _ | PyStr _ => yield (parent_key, data)
  | PyOther t => raise (ValueError (Unsupported_data_type t))
  end.

(** [process_json_data] (lines 215-235) *)
Definition process_json_data (data : pyvalue)
    (file_prefix separator index_format : string) (validate_keys : bool)
  : generator row :=
  match data with
  | PyDict _ =>
      flatten_json data file_prefix separator index_format validate_keys
  | PyList items =>
      (fix for_item (l : list pyvalue) : generator row :=
         match l with
         | [] => stop
         | item :: rest =>
             match item with
             | PyDict _ =>
                 flatten_json item file_prefix separator index_format validate_keys ;;
                 for_item rest
             | _ => raise (ValueError (Must_be_dicts (type_name item)))
             end
         end) items
  | _ => raise (ValueError JSON_must_be_an_object_or_array_of_objects)
  end.

End Flatten.

(** ** Results of calls that may raise *)

Inductive result (A : Type) : Type :=
| Returns (a : A)
| Raises (e : exn).
Arguments Returns {A} _.
Arguments Raises {A} _.

(** ** CSV writer (lines 241-262 of the source) *)

(** What [csv.writer] was asked to write, line by line *)
Inductive csv_line : Type :=
| Header (columns : list string)
| Record_ (key : string) (value : pyvalue).

(** How a call on the destination fails: with an [OSError] (a missing
    permission, a full disk), which [write_csv] raises again as an
    [IOError], or with a [ValueError] of the library (the
    [UnicodeEncodeError] of a string that cannot be encoded, the limit on
    the digits of an [int] turned into text). *)
Inductive io_failure : Type :=
| OS_error
| Value_error.

Definition exn_of (f : io_failure) : exn :=
  match f with
  | OS_error => IOError
  | Value_error => ValueError Raised_by_the_library
  end.

(** What the destination does with the calls of [write_csv]: [opening] is
    the failure of [mkdir] and [open], if any; [refuses n line] is the
    failure of [writerow] on [line] when [n] lines have been accepted, if
    any; [closes] tells whether the file is flushed and closed without an
    [OSError] at the end of the [with] block. *)
Record destination : Type := {
  opening : option io_failure;
  refuses : nat -> csv_line -> option io_failure;
  closes : bool
}.

(** A destination on which every call succeeds *)
Definition reliable : destination :=
  {| opening := None; refuses := fun _ _ => None; closes := true |}.

(** A destination that cannot be opened *)
Definition unopenable : destination :=
  {| opening := Some OS_error; refuses := fun _ _ => None; closes := true |}.

(** The loop of [write_csv] over the rows its argument yields: it ends at
    the first line that the destination refuses. *)
Fixpoint write_rows (dest : destination) (data : list row)
    (file : list csv_line) (row_count : nat)
  : list csv_line * nat * option io_failure :=
  match data with
  | [] => (file, row_count, None)
  | (key, value) :: rest =>
      let sanitized_key := replace COMMA "_" key in
      match refuses dest (length file) (Record_ sanitized_key value) with
      | Some f => (file, row_count, Some f)
      | None =>
          write_rows dest rest (file ++ [Record_ sanitized_key value])
            (S row_count)
      end
  end.

(** [except IOError as error: raise IOError(...)] (lines 259-260): every
    [OSError] leaves as an [IOError], the other exceptions as they are. *)
Definition reraise (e : exn) : exn :=
  match e with
  | FileNotFoundError => IOError
  | _ => e
  end.

(** The exception that leaves the [with] block entered with [e]: closing
    the file comes first, and its [OSError] takes the place of [e]. *)
Definition leaving (dest : destination) (e : exn) : exn :=
  if closes dest then e else IOError.

(** [write_csv].  The first component is the lines that the writer
    accepted, if the file was opened.  An exception raised by [data] while
    it is consumed, or by the destination, leaves [write_csv] after the
    lines before it have been accepted. *)
Definition write_csv (data : generator row) (dest : destination)
  : option (list csv_line) * result nat :=
  match opening dest with
  | Some f => (None, Raises (exn_of f))
  | None =>
      match refuses dest 0 (Header CSV_HEADERS) with
      | Some f => (Some [], Raises (leaving dest (exn_of f)))
      | None =>
          let '(file, row_count, refused) :=
            write_rows dest (yielded data) [Header CSV_HEADERS] 0 in
          match refused with
          | Some f => (Some file, Raises (leaving dest (exn_of f)))
          | None =>
              match raised data with
              | Some e => (Some file, Raises (leaving dest (reraise e)))
              | None =>
                  if closes dest then
                    if (row_count =? 0)%nat
                    then (Some file, Raises (ValueError No_valid_data_to_write))
                    else (Some file, Returns row_count)
                  else (Some file, Raises IOError)
              end
          end
      end
  end.

(** ** Arguments and files *)

(** The [argparse.Namespace], as far as the core reads it *)
Record Namespace : Type := {
  separator : string;
  index_format : string;
  validate_keys : bool
}.

(** What [load_json_data] finds at a path *)
Inductive file_content : Type :=
| Parsed (data : pyvalue)
| Malformed
| Undecodable
| Unreadable.

Record json_file : Type := {
  stem : string;
  content : file_content
}.

(** [load_json_data] (lines 151-167): [json.JSONDecodeError] is a
    [ValueError]; a file that cannot be opened raises an [OSError]. *)
Definition load_json_data (path : json_file) : result pyvalue :=
  match content path with
  | Parsed data =>
      match data with
      | PyDict _ | PyList _ => Returns data
      | _ => Raises (ValueError (JSON_must_be_object_or_array (type_name data)))
      end
  | Malformed => Raises (ValueError Invalid_JSON)
  | Undecodable => Raises (ValueError Encoding_error)
  | Unreadable => Raises IOError
  end.

Definition is_ValueError (e : exn) : bool :=
  match e with
  | ValueError _ => true
  | _ => false
  end.

(** [except (FileNotFoundError, ValueError)] (line 284) *)
Definition caught_at_initialization (e : exn) : bool :=
  match e with
  | ValueError _ | FileNotFoundError => true
  | _ => false
  end.

(** [except (FileNotFoundError, ValueError, IOError)] (line 312) *)
Definition caught_at_writing (e : exn) : bool :=
  match e with
  | ValueError _ | FileNotFoundError | IOError => true
  | _ => false
  end.

(** How [run] ends *)
Inductive outcome : Type :=
| Initialization_failed (e : exn)
| No_valid_data_found
| Error (e : exn)
| Successfully_wrote (row_count : nat)
| Uncaught (e : exn).

Record run_result : Type := {
  ending : outcome;
  output : option (list csv_line);
  skipping : list exn
}.

Section Run.

Variable str_format : string -> nat -> format_result.

(** The checks of [parse_arguments] (lines 116-126) on the parsed
    arguments *)
Definition parse_arguments (args : Namespace) : result Namespace :=
  if has_csv_breaking_char (separator args) then
    Raises (ValueError Separator_cannot_be_empty_a_comma_or_a_newline)
  else
    match str_format (index_format args) 0 with
    | Rendered _ => Returns args
    | FormatRaises (ValueError _) => Raises (ValueError Invalid_index_format)
    | FormatRaises e => Raises e
    end.

(** The loop of [run] over the files (lines 288-302).
    [all_data.extend(rows)] appends the rows one by one as [rows] yields
    them, so the rows yielded before an exception stay in [all_data].
    The result is [all_data], the exceptions reported as skipped, and the
    exception that left the loop, if one did. *)
Fixpoint for_json_files (args : Namespace) (json_files : list json_file)
    (all_data : list row) (skipping : list exn)
  : list row * list exn * option exn :=
  match json_files with
  | [] => (all_data, skipping, None)
  | json_file :: rest =>
      match load_json_data json_file with
      | Raises e =>
          if is_ValueError e
          then for_json_files args rest all_data (skipping ++ [e])
          else (all_data, skipping, Some e)
      | Returns data =>
          let rows :=
            process_json_data str_format data (stem json_file)
              (separator args) (index_format args) (validate_keys args) in
          let all_data := (all_data ++ yielded rows)%list in
          match raised rows with
          | None => for_json_files args rest all_data skipping
          | Some e =>
              if is_ValueError e
              then for_json_files args rest all_data (skipping ++ [e])
              else (all_data, skipping, Some e)
          end
      end
  end.

(** [run] (lines 277-314).  [found] is what [get_json_files] returns or
    raises; [dest] is as for [write_csv]. *)
Definition run (argv : Namespace) (found : result (list json_file))
    (dest : destination) : run_result :=
  match parse_arguments argv with
  | Raises e =>
      if caught_at_initialization e
      then {| ending := Initialization_failed e; output := None; skipping := [] |}
      else {| ending := Uncaught e; output := None; skipping := [] |}
  | Returns args =>
      match found with
      | Raises e =>
          if caught_at_initialization e
          then {| ending := Initialization_failed e; output := None; skipping := [] |}
          else {| ending := Uncaught e; output := None; skipping := [] |}
      | Returns json_files =>
          match for_json_files args json_files [] [] with
          | (_, skipped, Some e) =>
              {| ending := Uncaught e; output := None; skipping := skipped |}
          | (all_data, skipped, None) =>
              match all_data with
              | [] =>
                  {| ending := No_valid_data_found; output := None;
                     skipping := skipped |}
              | _ =>
                  match write_csv (Gen all_data None) dest with
                  | (file, Returns row_count) =>
                      {| ending := Successfully_wrote row_count; output := file;
                         skipping := skipped |}
                  | (file, Raises e) =>
                      if caught_at_writing e
                      then {| ending := Error e; output := file; skipping := skipped |}
                      else {| ending := Uncaught e; output := file; skipping := skipped |}
                  end
              end
          end
      end
  end.

End Run.

(** ** Induction on Python values *)

Section PyvalueInd.

Variable P : pyvalue -> Prop.
Hypothesis HNone : P PyNone.
Hypothesis HBool : forall b, P (PyBool b).
Hypothesis HInt : forall n, P (PyInt n).
Hypothesis HFloat : forall bits, P (PyFloat bits).
Hypothesis HStr : forall s, P (PyStr s).
Hypothesis HDict :
  forall items, Forall (fun kv => P (snd kv)) items -> P (PyDict items).
Hypothesis HList : forall items, Forall P items -> P (PyList items).
Hypothesis HOther : forall t, P (PyOther t).

Fixpoint pyvalue_ind (data : pyvalue) : P data :=
  match data with
  | PyNone => HNone
  | PyBool b => HBool b
  | PyInt n => HInt n
  | PyFloat bits => HFloat bits
  | PyStr s => HStr s
  | PyDict items =>
      HDict items
        ((fix items_ind (l : list (pykey * pyvalue))
            : Forall (fun kv => P (snd kv)) l :=
            match l with
            | [] => Forall_nil _
            | kv :: rest =>
                Forall_cons kv (pyvalue_ind (snd kv)) (items_ind rest)
            end) items)
  | PyList items =>
      HList items
        ((fix items_ind (l : list pyvalue) : Forall P l :=
            match l with
            | [] => Forall_nil _
            | item :: rest => Forall_cons item (pyvalue_ind item) (items_ind rest)
            end) items)
  | PyOther t => HOther t
  end.

End PyvalueInd.

(** * Vocabulary of the properties *)

(** [for x in l: yield from body(x)] *)
Definition gfor {A B : Type} (l : list A) (body : A -> generator B)
  : generator B :=
  fold_right (fun x rest => body x ;; rest) stop l.

(** [enumerate(l)] *)
Definition enumerate_from {A : Type} (start : nat) (l : list A)
  : list (nat * A) :=
  combine (seq start (length l)) l.
Definition enumerate {A : Type} (l : list A) : list (nat * A) :=
  enumerate_from 0 l.

(** The checks of lines 189-194 let [key] through *)
Definition key_passes (key : string) : bool :=
  negb (MAX_KEY_LENGTH <? String.length key)%nat
  && negb (has_csv_breaking_char key).

(** A JSON object whose fields are [fields], in order *)
Definition object_of (fields : list (string * pyvalue)) : pyvalue :=
  PyDict (map (fun f => (KStr (fst f), snd f)) fields).

(** The primitive leaves of a value, empty containers counting for none *)
Fixpoint count_leaves (data : pyvalue) : nat :=
  match data with
  | PyDict items =>
      (fix sum_items (l : list (pykey * pyvalue)) : nat :=
         match l with
         | [] => 0
         | (_, value) :: rest => count_leaves value + sum_items rest
         end) items
  | PyList items =>
      (fix sum_items (l : list pyvalue) : nat :=
         match l with
         | [] => 0
         | item :: rest => count_leaves item + sum_items rest
         end) items
  | PyOther _ => 0
  | _ => 1
  end.

(** The two errors of lines 189-194 *)
Definition is_key_validation_error (e : exn) : bool :=
  match e with
  | ValueError (Key_too_long _) | ValueError (Key_has_invalid_characters _) => true
  | _ => false
  end.

(** No [dict] occurs in the value, at any depth *)
Fixpoint dict_free (data : pyvalue) : bool :=
  match data with
  | PyDict _ => false
  | PyList items =>
      (fix all_items (l : list pyvalue) : bool :=
         match l with
         | [] => true
         | item :: rest => dict_free item && all_items rest
         end) items
  | _ => true
  end.

Section Vocabulary.

Variable str_format : string -> nat -> format_result.

(** One turn of the loop over [data.items()] *)
Definition dict_step (parent_key separator index_format : string)
    (validate_keys : bool) (kv : pykey * pyvalue) : generator row :=
  match kv with
  | (KOther t, _) => raise (ValueError (Keys_must_be_str t))
  | (KStr key, value) =>
      let nk := new_key parent_key separator key in
      if validate_keys && (MAX_KEY_LENGTH <? String.length nk)%nat then
        raise (ValueError (Key_too_long nk))
      else if validate_keys && has_csv_breaking_char nk then
        raise (ValueError (Key_has_invalid_characters nk))
      else flatten_json str_format value nk separator index_format validate_keys
  end.

(** One turn of the loop over [enumerate(data)] *)
Definition list_step (parent_key separator index_format : string)
    (validate_keys : bool) (ix : nat * pyvalue) : generator row :=
  let '(index, item) := ix in
  match str_format index_format index with
  | Rendered idx =>
      flatten_json str_format item (idx_key parent_key separator idx)
        separator index_format validate_keys
  | FormatRaises (ValueError _) =>
      flatten_json str_format item (idx_key parent_key separator (str index))
        separator index_format validate_keys
  | FormatRaises e => raise e
  end.

(** The segment [idx] of lines 201-204, when the rendering leaves the
    [try] with a value *)
Definition segment (index_format : string) (index : nat) : string :=
  match str_format index_format index with
  | Rendered idx => idx
  | FormatRaises _ => str index
  end.

(** The exception that leaves the [try] of lines 201-204, if any *)
Definition escapes (index_format : string) (index : nat) : option exn :=
  match str_format index_format index with
  | Rendered _ | FormatRaises (ValueError _) => None
  | FormatRaises e => Some e
  end.

(** What one file adds to [all_data]: nothing when loading fails, the
    rows yielded by [process_json_data] otherwise, whether or not it
    raises after them. *)
Definition contribution (args : Namespace) (f : json_file) : list row :=
  match load_json_data f with
  | Raises _ => []
  | Returns data =>
      yielded (process_json_data str_format data (stem f) (separator args)
                 (index_format args) (validate_keys args))
  end.

(** The exception that ends the handling of one file, if any *)
Definition failure (args : Namespace) (f : json_file) : option exn :=
  match load_json_data f with
  | Raises e => Some e
  | Returns data =>
      raised (process_json_data str_format data (stem f) (separator args)
                (index_format args) (validate_keys args))
  end.

End Vocabulary.

(** ** File discovery (lines 132-148 of the source) *)

Definition JSON_EXTENSION : string := ".json".

(** [c.lower()] on the ASCII letters, the only ones that matter in a
    comparison with [JSON_EXTENSION] *)
Definition lower_ascii (c : ascii) : ascii :=
  let n := Ascii.nat_of_ascii c in
  if ((65 <=? n) && (n <=? 90))%nat then Ascii.ascii_of_nat (n + 32) else c.

(** [s.lower()] *)
Fixpoint lower (s : string) : string :=
  match s with
  | EmptyString => EmptyString
  | String c rest => String (lower_ascii c) (lower rest)
  end.

(** What [pathlib] answers about a path: [exists()], [is_file()],
    [is_dir()], [suffix], the file the path itself designates and the
    files that [glob("*.json")] lists, in its order. *)
Record Path : Type := {
  path_exists : bool;
  path_is_file : bool;
  path_is_dir : bool;
  path_suffix : string;
  path_itself : json_file;
  path_glob : list json_file
}.

(** The four [raise] of [get_json_files]: the first three are
    [FileNotFoundError], the last one is a [ValueError]. *)
Inductive path_error : Type :=
| Path_does_not_exist
| Not_a_json_file
| No_JSON_files_found
| Invalid_path.

Definition is_FileNotFoundError (e : path_error) : bool :=
  match e with
  | Invalid_path => false
  | _ => true
  end.

(** [get_json_files] *)
Definition get_json_files (path : Path) : path_error + list json_file :=
  if negb (path_exists path) then inl Path_does_not_exist
  else if path_is_file path then
    if String.eqb (lower (path_suffix path)) JSON_EXTENSION
    then inr [path_itself path]
    else inl Not_a_json_file
  else if path_is_dir path then
    match path_glob path with
    | [] => inl No_JSON_files_found
    | files => inr files
    end
  else inl Invalid_path.

(** ** More vocabulary *)

(** A value as [json.load] builds it: every key a [str], no value of a
    type outside JSON *)
Fixpoint json_value (data : pyvalue) : bool :=
  match data with
  | PyDict items =>
      (fix all_items (l : list (pykey * pyvalue)) : bool :=
         match l with
         | [] => true
         | (KStr _, value) :: rest => json_value value && all_items rest
         | (KOther _, _) :: _ => false
         end) items
  | PyList items =>
      (fix all_items (l : list pyvalue) : bool :=
         match l with
         | [] => true
         | item :: rest => json_value item && all_items rest
         end) items
  | PyOther _ => false
  | _ => true
  end.

(** No [list] occurs in the value, at any depth *)
Fixpoint list_free (data : pyvalue) : bool :=
  match data with
  | PyDict items =>
      (fix all_items (l : list (pykey * pyvalue)) : bool :=
         match l with
         | [] => true
         | (_, value) :: rest => list_free value && all_items rest
         end) items
  | PyList _ => false
  | _ => true
  end.

(** The line [writer.writerow([sanitized_key, value])] writes for a row *)
Definition written (r : row) : csv_line :=
  Record_ (replace COMMA "_" (fst r)) (snd r).

(** [g_on] may stop early with an exception; up to there it is [g_off]. *)
Definition cut_short {A : Type} (g_on g_off : generator A) : Prop :=
  (exists rest, yielded g_off = (yielded g_on ++ rest)%list)
  /\ (raised g_on = None -> g_on = g_off).

(** The exceptions [run] reports as skipped, file by file *)
Definition skipped_of (str_format : string -> nat -> format_result)
    (args : Namespace) (files : list json_file) : list exn :=
  flat_map (fun f => match failure str_format args f with
                     | Some e => [e]
                     | None => []
                     end) files.

(** * Properties *)

(** ** Generators *)

Lemma gseq_stop_l {A} (g : generator A) : stop ;; g = g.
Proof. destruct g; reflexivity. Qed.

Lemma gseq_stop_r {A} (g : generator A) : g ;; stop = g.
Proof.
  destruct g as [ys [e|]]; unfold gseq; simpl; try reflexivity.
  now rewrite app_nil_r.
Qed.

Lemma gseq_raise_l {A} (e : exn) (g : generator A) : raise e ;; g = raise e.
Proof. reflexivity. Qed.

Lemma gseq_yield_l {A} (x : A) (g : generator A) :
  yield x ;; g = Gen (x :: yielded g) (raised g).
Proof. reflexivity. Qed.

Lemma gseq_assoc {A} (g1 g2 g3 : generator A) :
  (g1 ;; g2) ;; g3 = g1 ;; (g2 ;; g3).
Proof.
  destruct g1 as [y1 [e1|]], g2 as [y2 [e2|]], g3 as [y3 r3];
    unfold gseq; simpl; try reflexivity.
  now rewrite app_assoc.
Qed.

Lemma gseq_returns {A} (g1 g2 : generator A) :
  raised (g1 ;; g2) = None <-> raised g1 = None /\ raised g2 = None.
Proof.
  destruct g1 as [y1 [e1|]], g2 as [y2 [e2|]]; unfold gseq; simpl;
    intuition congruence.
Qed.

Lemma gseq_yielded_returns {A} (g1 g2 : generator A) :
  raised g1 = None -> yielded (g1 ;; g2) = (yielded g1 ++ yielded g2)%list.
Proof. unfold gseq; intros ->; reflexivity. Qed.

Lemma gseq_Gen_None {A} (l : list A) (g : generator A) :
  Gen l None ;; g = Gen (l ++ yielded g) (raised g).
Proof. reflexivity. Qed.

(** ** The loops of [flatten_json] as folds *)

Lemma flatten_json_dict str_format items parent_key separator index_format validate_keys :
  flatten_json str_format (PyDict items) parent_key separator index_format
    validate_keys
  = gfor items (dict_step str_format parent_key separator index_format validate_keys).
Proof.
  simpl. induction items as [|[[key|t] value] rest IH]; simpl.
  - reflexivity.
  - rewrite IH. destruct validate_keys; simpl; [|reflexivity].
    destruct (_ <? _)%nat; [reflexivity|].
    destruct (has_csv_breaking_char _); reflexivity.
  - reflexivity.
Qed.

Lemma flatten_json_list str_format items parent_key separator index_format validate_keys :
  flatten_json str_format (PyList items) parent_key separator index_format
    validate_keys
  = gfor (enumerate items)
      (list_step str_format parent_key separator index_format validate_keys).
Proof.
  simpl. unfold enumerate, enumerate_from. generalize 0 as start.
  induction items as [|item rest IH]; intros start; simpl.
  - reflexivity.
  - rewrite IH.
    destruct (str_format index_format start) as [idx|[m| | | | |]];
      reflexivity.
Qed.

(** ** Concrete scenarios *)

(** C1: the object [{"a": {"b": 1, "c": [10, 20]}}], processed with file
    prefix ["f"], separator ["_"], the default index format and key
    validation off, yields exactly the three leaf pairs [("f_a_b", 1)],
    [("f_a_c_0000", 10)], [("f_a_c_0001", 20)], in that order, and the
    generator returns. *)
Theorem nested_object_scenario :
  process_json_data py_format
    (PyDict [(KStr "a",
              PyDict [(KStr "b", PyInt 1);
                      (KStr "c", PyList [PyInt 10; PyInt 20])])])
    "f" "_" INDEX_FORMAT false
  = Gen [("f_a_b", PyInt 1); ("f_a_c_0000", PyInt 10); ("f_a_c_0001", PyInt 20)]
        None.
Proof. vm_compute. reflexivity. Qed.

(** C6: the top-level array [[{"x": true}, {"x": false}]] with file prefix
    ["f"] and the default configuration yields [("f_x", True)] then
    [("f_x", False)]; in general every element of a top-level array of
    objects is flattened with the same file prefix as starting key, no
    record index being inserted. *)
Theorem top_level_array_shares_prefix :
  process_json_data py_format
    (PyList [PyDict [(KStr "x", PyBool true)]; PyDict [(KStr "x", PyBool false)]])
    "f" KEY_SEPARATOR INDEX_FORMAT false
  = Gen [("f_x", PyBool true); ("f_x", PyBool false)] None
  /\ forall str_format (objects : list (list (pykey * pyvalue)))
       file_prefix separator index_format validate_keys,
       process_json_data str_format (PyList (map PyDict objects))
         file_prefix separator index_format validate_keys
       = gfor objects (fun items =>
           flatten_json str_format (PyDict items)
             file_prefix separator index_format validate_keys).
Proof.
  split; [vm_compute; reflexivity|].
  intros sf objects file_prefix sep fmt v. unfold process_json_data.
  induction objects as [|items rest IH]; [reflexivity|].
  cbn [map gfor fold_right]. unfold gfor in IH. rewrite <- IH. reflexivity.
Qed.

(** ** Key composition *)

Lemma truthy_nonempty (s : string) : s <> "" -> truthy s = true.
Proof. destruct s; [congruence|reflexivity]. Qed.

Lemma new_key_empty separator key : new_key "" separator key = key.
Proof. reflexivity. Qed.

Lemma new_key_nonempty parent_key separator key :
  parent_key <> "" ->
  new_key parent_key separator key = parent_key ++ separator ++ key.
Proof. intros H. unfold new_key. now rewrite truthy_nonempty. Qed.

Lemma idx_key_empty separator idx : idx_key "" separator idx = idx.
Proof. reflexivity. Qed.

Lemma idx_key_nonempty parent_key separator idx :
  parent_key <> "" ->
  idx_key parent_key separator idx = parent_key ++ separator ++ idx.
Proof. intros H. unfold idx_key. now rewrite truthy_nonempty. Qed.

Lemma flatten_json_primitive str_format data parent_key separator index_format
    validate_keys :
  is_primitive data = true ->
  flatten_json str_format data parent_key separator index_format validate_keys
  = yield (parent_key, data).
Proof. destruct data; simpl; intros H; try discriminate; reflexivity. Qed.

(** A flat object yields one row per field, under the key composed from
    the parent key and the field name. *)
Lemma flatten_json_flat_object str_format fields parent_key separator
    index_format validate_keys :
  Forall (fun f => is_primitive (snd f) = true) fields ->
  (validate_keys = true ->
   Forall (fun f => key_passes (new_key parent_key separator (fst f)) = true)
     fields) ->
  flatten_json str_format (object_of fields) parent_key separator index_format
    validate_keys
  = Gen (map (fun f => (new_key parent_key separator (fst f), snd f)) fields)
      None.
Proof.
  intros Hprim Hvalid. unfold object_of. rewrite flatten_json_dict.
  assert (Hv : Forall (fun f => validate_keys = true ->
                key_passes (new_key parent_key separator (fst f)) = true)
               fields).
  { destruct validate_keys.
    - eapply Forall_impl; [|apply Hvalid; reflexivity]. auto.
    - apply Forall_forall. intros; discriminate. }
  clear Hvalid.
  induction fields as [|[k v] rest IH]; [reflexivity|].
  inversion Hprim as [|? ? Hv1 Hrest]; subst.
  inversion Hv as [|? ? Hk Hvrest]; subst.
  cbn [map gfor fold_right fst snd] in *. unfold gfor in IH.
  rewrite (IH Hrest Hvrest). unfold dict_step.
  rewrite (flatten_json_primitive _ _ _ _ _ _ Hv1).
  destruct validate_keys; [|reflexivity].
  specialize (Hk eq_refl). unfold key_passes in Hk.
  apply andb_true_iff in Hk as [Hlen Hchr].
  apply negb_true_iff in Hlen, Hchr. simpl andb.
  rewrite Hlen, Hchr. reflexivity.
Qed.

(** ** Empty containers and leaves *)

Lemma count_leaves_dict items :
  count_leaves (PyDict items)
  = list_sum (map (fun kv => count_leaves (snd kv)) items).
Proof.
  simpl. induction items as [|[k v] rest IH]; simpl; [reflexivity|].
  now rewrite IH.
Qed.

Lemma count_leaves_list items :
  count_leaves (PyList items) = list_sum (map count_leaves items).
Proof.
  simpl. induction items as [|item rest IH]; simpl; [reflexivity|].
  now rewrite IH.
Qed.

(** A loop whose turns each yield as many rows as [weight] says, when they
    return, yields the sum of the weights when it returns. *)
Lemma gfor_length {A B} (weight : A -> nat) (body : A -> generator B) l :
  Forall (fun x => raised (body x) = None ->
                   length (yielded (body x)) = weight x) l ->
  raised (gfor l body) = None ->
  length (yielded (gfor l body)) = list_sum (map weight l).
Proof.
  induction 1 as [|x rest Hx _ IH]; [reflexivity|].
  cbn [gfor fold_right map list_sum]. fold (gfor rest body).
  intros Hr. apply gseq_returns in Hr as [Hr1 Hr2].
  rewrite gseq_yielded_returns by assumption.
  rewrite length_app, Hx, IH by assumption. reflexivity.
Qed.

Lemma Forall_enumerate_from {A} (P : A -> Prop) (Q : nat * A -> Prop) l :
  (forall i x, P x -> Q (i, x)) ->
  Forall P l -> forall start, Forall Q (enumerate_from start l).
Proof.
  intros HPQ. induction 1 as [|x rest Hx _ IH]; intros start;
    unfold enumerate_from; simpl; constructor; auto.
  apply IH.
Qed.

Lemma map_snd_enumerate_from {A B} (f : A -> B) (l : list A) start :
  map (fun ix => f (snd ix)) (enumerate_from start l) = map f l.
Proof.
  revert start. induction l as [|x rest IH]; intros start; [reflexivity|].
  unfold enumerate_from in *. simpl. now rewrite IH.
Qed.

(** When flattening returns, it has yielded one row per primitive leaf. *)
Lemma flatten_json_counts_leaves str_format data :
  forall parent_key separator index_format validate_keys,
    let rows := flatten_json str_format data parent_key separator index_format
                  validate_keys in
    raised rows = None -> length (yielded rows) = count_leaves data.
Proof.
  induction data as [| | | | |items IH|items IH|t] using pyvalue_ind;
    intros parent_key sep fmt v rows; subst rows; try (intros _; reflexivity).
  - rewrite flatten_json_dict, count_leaves_dict. apply gfor_length.
    eapply Forall_impl; [|exact IH]. intros [[key|t] value] Hv; simpl.
    + destruct (v && _); [discriminate|].
      destruct (v && _); [discriminate|]. apply Hv.
    + discriminate.
  - rewrite flatten_json_list, count_leaves_list.
    rewrite <- (map_snd_enumerate_from count_leaves items 0).
    apply gfor_length.
    apply Forall_enumerate_from with (P := fun item =>
      forall parent_key sep fmt v,
        raised (flatten_json str_format item parent_key sep fmt v) = None ->
        length (yielded (flatten_json str_format item parent_key sep fmt v))
        = count_leaves item); [|exact IH].
    intros i item Hitem. simpl.
    destruct (str_format fmt i) as [idx|[m| | | | |]];
      try discriminate; apply Hitem.
Qed.

(** C8: an empty object or an empty array yields no leaf pair and returns,
    whatever the parent key (so at any depth); more generally a flattening
    that returns has yielded exactly one row per primitive leaf of the
    value, empty containers contributing none.  A primitive flattened with
    an empty parent key yields exactly one leaf pair, whose key is the
    empty string. *)
Theorem empty_containers_yield_nothing str_format (data : pyvalue)
    (parent_key separator index_format : string) (validate_keys : bool) :
  flatten_json str_format (PyDict []) parent_key separator index_format
    validate_keys = Gen [] None
  /\ flatten_json str_format (PyList []) parent_key separator index_format
       validate_keys = Gen [] None
  /\ count_leaves (PyDict []) = 0 /\ count_leaves (PyList []) = 0
  /\ (raised (flatten_json str_format data parent_key separator index_format
                validate_keys) = None ->
      length (yielded (flatten_json str_format data parent_key separator
                         index_format validate_keys))
      = count_leaves data)
  /\ (is_primitive data = true ->
      flatten_json str_format data PARENT_KEY separator index_format
        validate_keys = Gen [("", data)] None).
Proof.
  repeat split; try reflexivity.
  - apply flatten_json_counts_leaves.
  - intros H. now rewrite flatten_json_primitive.
Qed.

(** An object whose only primitive leaf sits beside empty containers, at
    two depths, yields one row *)
Lemma empty_containers_yield_nothing_witness :
  length (yielded (flatten_json py_format
     (PyDict [(KStr "a", PyDict []); (KStr "b", PyList [PyList []; PyInt 1]);
              (KStr "c", PyList [])])
     "f" "_" INDEX_FORMAT false)) = 1
  /\ flatten_json py_format (PyStr "v") PARENT_KEY "_" INDEX_FORMAT false
     = Gen [("", PyStr "v")] None.
Proof.
  split.
  - exact (proj1 (proj2 (proj2 (proj2 (proj2
      (empty_containers_yield_nothing py_format
         (PyDict [(KStr "a", PyDict []);
                  (KStr "b", PyList [PyList []; PyInt 1]);
                  (KStr "c", PyList [])])
         "f" "_" INDEX_FORMAT false))))) eq_refl).
  - exact (proj2 (proj2 (proj2 (proj2 (proj2
      (empty_containers_yield_nothing py_format (PyStr "v")
         "f" "_" INDEX_FORMAT false))))) eq_refl).
Defined.

(** ** The writer *)

Lemma write_rows_spec dest data file row_count :
  (forall n line, refuses dest n line = None) ->
  write_rows dest data file row_count
  = ((file ++ map (fun r => Record_ (replace COMMA "_" (fst r)) (snd r)) data)%list,
     length data + row_count, None).
Proof.
  intros Hacc. revert file row_count.
  induction data as [|[key value] rest IH]; intros file row_count; simpl.
  - now rewrite app_nil_r.
  - rewrite Hacc, IH, <- app_assoc. simpl. do 2 f_equal. lia.
Qed.

(** A loop that no line stopped has counted every row. *)
Lemma write_rows_count dest data file row_count file' row_count' :
  write_rows dest data file row_count = (file', row_count', None) ->
  row_count' = length data + row_count.
Proof.
  revert file row_count.
  induction data as [|[key value] rest IH]; intros file row_count; simpl.
  - now intros [= _ <-].
  - destruct (refuses dest _ _); [discriminate|].
    intros H. apply IH in H. lia.
Qed.

(** What [write_csv] leaves and returns on a destination where every call
    succeeds, by cases *)
Lemma write_csv_spec data dest :
  opening dest = None -> (forall n line, refuses dest n line = None) ->
  closes dest = true ->
  write_csv data dest
  = (Some (Header CSV_HEADERS
           :: map (fun r => Record_ (replace COMMA "_" (fst r)) (snd r))
                (yielded data)),
     match raised data with
     | Some e => Raises (reraise e)
     | None =>
         match yielded data with
         | [] => Raises (ValueError No_valid_data_to_write)
         | _ => Returns (length (yielded data))
         end
     end).
Proof.
  intros Ho Hacc Hc. unfold write_csv, leaving.
  rewrite Ho, Hacc, (write_rows_spec _ _ _ _ Hacc), Hc, Nat.add_0_r.
  destruct data as [ys [e|]]; simpl; [reflexivity|].
  destruct ys; reflexivity.
Qed.

(** C9: writing a sequence of zero leaf pairs fails with the zero-rows
    error, after the header has been written, on the reliable destination
    and on every destination that opens, accepts the header and closes;
    whatever the destination, the call does not return.  When [write_csv]
    returns, the count it returns is the number of rows written and is at
    least 1, so a header-only file is never reported as a result. *)
Theorem write_csv_zero_rows :
  write_csv (Gen [] None) reliable
  = (Some [Header CSV_HEADERS], Raises (ValueError No_valid_data_to_write))
  /\ (forall dest,
        opening dest = None -> refuses dest 0 (Header CSV_HEADERS) = None ->
        closes dest = true ->
        write_csv (Gen [] None) dest
        = (Some [Header CSV_HEADERS],
           Raises (ValueError No_valid_data_to_write)))
  /\ (forall dest, exists file e,
        write_csv (Gen [] None) dest = (file, Raises e))
  /\ (forall data dest file row_count,
        write_csv data dest = (file, Returns row_count) ->
        1 <= row_count /\ row_count = length (yielded data)
        /\ raised data = None).
Proof.
  split; [reflexivity|]. split; [|split].
  - intros dest Ho Hh Hc. unfold write_csv. rewrite Ho, Hh. simpl.
    now rewrite Hc.
  - intros dest. unfold write_csv.
    destruct (opening dest); [do 2 eexists; reflexivity|].
    destruct (refuses dest 0 _); [do 2 eexists; reflexivity|]. simpl.
    destruct (closes dest); do 2 eexists; reflexivity.
  - intros data dest file row_count. unfold write_csv.
    destruct (opening dest); [discriminate|].
    destruct (refuses dest 0 _); [discriminate|].
    destruct (write_rows dest (yielded data) [Header CSV_HEADERS] 0)
      as [[file' rc] [f|]] eqn:W; [discriminate|].
    apply write_rows_count in W. rewrite Nat.add_0_r in W. subst rc.
    destruct (raised data); [discriminate|].
    destruct (closes dest); [|discriminate].
    destruct (length (yielded data)) as [|n] eqn:L; [discriminate|].
    cbn. intros [= _ <-]. repeat split. lia.
Qed.

(** Two rows written, two rows counted *)
Lemma write_csv_zero_rows_witness :
  1 <= 2 /\ 2 = length [("a,b", PyInt 1); ("c", PyNone)]
  /\ @raised row (Gen [("a,b", PyInt 1); ("c", PyNone)] None) = None.
Proof.
  exact (proj2 (proj2 (proj2 write_csv_zero_rows))
           (Gen [("a,b", PyInt 1); ("c", PyNone)] None) reliable
           (Some [Header CSV_HEADERS; Record_ "a_b" (PyInt 1); Record_ "c" PyNone])
           2 eq_refl).
Defined.

(** ** Index segments *)

Lemma list_step_primitive str_format parent_key separator index_format validate_keys
    index item :
  is_primitive item = true ->
  escapes str_format index_format index = None ->
  list_step str_format parent_key separator index_format validate_keys
    (index, item)
  = yield (idx_key parent_key separator (segment str_format index_format index), item).
Proof.
  intros Hp He. unfold list_step, escapes, segment in *.
  destruct (str_format index_format index) as [idx|[m| | | | |]];
    try discriminate; now apply flatten_json_primitive.
Qed.

Lemma gfor_primitives str_format parent_key separator index_format validate_keys items :
  Forall (fun item => is_primitive item = true) items ->
  forall start,
    (forall i, start <= i < start + length items ->
               escapes str_format index_format i = None) ->
    gfor (enumerate_from start items)
      (list_step str_format parent_key separator index_format validate_keys)
    = Gen (map (fun ix =>
                  (idx_key parent_key separator (segment str_format index_format (fst ix)),
                   snd ix))
             (enumerate_from start items)) None.
Proof.
  induction 1 as [|item rest Hp _ IH]; intros start Hesc; [reflexivity|].
  unfold enumerate_from in *. cbn [length seq combine gfor fold_right map].
  unfold gfor in IH. rewrite (IH (S start)).
  - rewrite list_step_primitive; [reflexivity|assumption|].
    apply Hesc. simpl. lia.
  - intros i Hi. apply Hesc. simpl. lia.
Qed.

Lemma append_empty_r (s : string) : s ++ "" = s.
Proof. induction s as [|c s IH]; simpl; [reflexivity|now rewrite IH]. Qed.

Lemma length_append (s1 s2 : string) :
  String.length (s1 ++ s2) = String.length s1 + String.length s2.
Proof. induction s1 as [|c s1 IH]; simpl; [reflexivity|now rewrite IH]. Qed.

Lemma length_fill n c : String.length (fill n c) = n.
Proof. induction n as [|n IH]; simpl; [reflexivity|now rewrite IH]. Qed.

Lemma pad_left_length c width s :
  String.length (pad_left c width s) = Nat.max width (String.length s).
Proof. unfold pad_left. rewrite length_append, length_fill. lia. Qed.

Lemma default_index_format index :
  py_format INDEX_FORMAT index = Rendered (pad_left "0" 4 (str index)).
Proof.
  change (py_format INDEX_FORMAT index)
    with (Rendered (pad_left "0" 4 (str index) ++ "")).
  now rewrite append_empty_r.
Qed.

(** What the code does with an index: the key segment of the array element
    at zero-based index [i] is the index format applied to [i] (the default
    pads with zeros to four digits, index 3 giving ["0003"]), and it is
    [str(i)] when applying the format raises a [ValueError]; so an array
    of primitives whose indices all render or raise [ValueError] yields
    one row per element under these segments.  A format whose rendering
    raises anything else is not caught: the exception leaves
    [flatten_json]. *)
Theorem index_segment_rendering str_format (items : list pyvalue)
    (parent_key separator index_format : string) (validate_keys : bool) :
  (forall i idx, str_format index_format i = Rendered idx ->
                 segment str_format index_format i = idx)
  /\ (forall i m, str_format index_format i = FormatRaises (ValueError m) ->
                  segment str_format index_format i = str i)
  /\ (Forall (fun item => is_primitive item = true) items ->
      (forall i, i < length items -> escapes str_format index_format i = None) ->
      flatten_json str_format (PyList items) parent_key separator index_format
        validate_keys
      = Gen (map (fun ix =>
                    (idx_key parent_key separator
                       (segment str_format index_format (fst ix)), snd ix))
               (enumerate items)) None)
  /\ (forall e item rest,
        str_format index_format 0 = FormatRaises e -> is_ValueError e = false ->
        flatten_json str_format (PyList (item :: rest)) parent_key separator
          index_format validate_keys = Gen [] (Some e))
  /\ (forall i, py_format INDEX_FORMAT i = Rendered (pad_left "0" 4 (str i))
                 /\ String.length (pad_left "0" 4 (str i))
                    = Nat.max 4 (String.length (str i)))
  /\ py_format INDEX_FORMAT 3 = Rendered "0003".
Proof.
  split; [|split; [|split; [|split; [|split]]]].
  - intros i idx H. unfold segment. now rewrite H.
  - intros i m H. unfold segment. now rewrite H.
  - intros Hp Hesc. rewrite flatten_json_list. unfold enumerate.
    apply gfor_primitives; [assumption|]. intros i Hi. apply Hesc. lia.
  - intros e item rest H He. simpl. rewrite H.
    destruct e; try reflexivity; discriminate.
  - intros i. split; [apply default_index_format|apply pad_left_length].
  - reflexivity.
Qed.

(** A format that raises [ValueError], a format that renders, and a
    format that raises [KeyError] *)
Lemma index_segment_rendering_witness :
  flatten_json py_format (PyList [PyInt 10; PyInt 20]) "f" "_" "{:04d}{" false
  = Gen [("f_0", PyInt 10); ("f_1", PyInt 20)] None
  /\ flatten_json py_format (PyList [PyInt 10; PyInt 20]) "f" "_" "{:03d}" false
     = Gen [("f_000", PyInt 10); ("f_001", PyInt 20)] None
  /\ flatten_json py_format (PyList [PyInt 10; PyInt 20]) "f" "_" "{x}" false
     = Gen [] (Some KeyError).
Proof.
  split; [|split].
  - refine (proj1 (proj2 (proj2
      (index_segment_rendering py_format [PyInt 10; PyInt 20] "f" "_"
         "{:04d}{" false))) _ _).
    + repeat constructor.
    + intros [|[|i]] Hi; [reflexivity|reflexivity|simpl in Hi; lia].
  - refine (proj1 (proj2 (proj2
      (index_segment_rendering py_format [PyInt 10; PyInt 20] "f" "_"
         "{:03d}" false))) _ _).
    + repeat constructor.
    + intros [|[|i]] Hi; [reflexivity|reflexivity|simpl in Hi; lia].
  - exact (proj1 (proj2 (proj2 (proj2
      (index_segment_rendering py_format [PyInt 10; PyInt 20] "f" "_"
         "{x}" false)))) KeyError (PyInt 10) [PyInt 20] eq_refl eq_refl).
Defined.

(** C4, where the code departs from it: the fallback to [str(i)] is there
    for a format that fails with a [ValueError] (["{"] gives the keys
    ["f_0"] and ["f_1"]), but a format that fails to render the index
    with another exception is not caught: ["{1}"] raises an [IndexError]
    and ["{x}"] a [KeyError], which end the flattening instead of giving
    the key ["f_0"], and which [run] does not catch either. *)
Theorem index_fallback_misses_other_errors :
  flatten_json py_format (PyList [PyInt 7; PyInt 8]) "f" "_" "{" false
  = Gen [("f_0", PyInt 7); ("f_1", PyInt 8)] None
  /\ py_format "{1}" 0 = FormatRaises IndexError
  /\ flatten_json py_format (PyList [PyInt 7]) "f" "_" "{1}" false
     = Gen [] (Some IndexError)
  /\ flatten_json py_format (PyList [PyInt 7]) "f" "_" "{1}" false
     <> Gen [(idx_key "f" "_" (str 0), PyInt 7)] None
  /\ py_format "{x}" 0 = FormatRaises KeyError
  /\ flatten_json py_format (PyList [PyInt 7]) "f" "_" "{x}" false
     = Gen [] (Some KeyError)
  /\ ending (run py_format
               {| separator := "_"; index_format := "{1}";
                  validate_keys := false |}
               (Returns [{| stem := "f";
                            content := Parsed (PyDict [(KStr "a",
                                                        PyList [PyInt 7])]) |}])
               reliable)
     = Uncaught IndexError.
Proof. repeat split; try reflexivity. discriminate. Qed.

(** ** Key validation *)

Lemma dict_free_list items :
  dict_free (PyList items) = forallb dict_free items.
Proof.
  simpl. induction items as [|item rest IH]; simpl; [reflexivity|].
  now rewrite IH.
Qed.

Lemma gfor_ext {A B} (f g : A -> generator B) l :
  Forall (fun x => f x = g x) l -> gfor l f = gfor l g.
Proof.
  induction 1 as [|x rest Hx _ IH]; [reflexivity|].
  cbn [gfor fold_right]. fold (gfor rest f) (gfor rest g).
  now rewrite Hx, IH.
Qed.

Lemma gfor_raised {A B} (body : A -> generator B) l e :
  raised (gfor l body) = Some e -> exists x, In x l /\ raised (body x) = Some e.
Proof.
  induction l as [|x rest IH]; [discriminate|].
  cbn [gfor fold_right]. fold (gfor rest body). unfold gseq.
  destruct (raised (body x)) as [e'|] eqn:Hx; simpl.
  - intros [= ->]. exists x. split; [now left|assumption].
  - intros H. destruct (IH H) as (y & Hy & Hr). exists y. split; [now right|assumption].
Qed.

Lemma in_enumerate_from {A} (l : list A) start i x :
  In (i, x) (enumerate_from start l) -> In x l.
Proof. unfold enumerate_from. apply in_combine_r. Qed.

(** Without dictionaries below, [validate_keys] changes nothing. *)
Lemma dict_free_ignores_validation str_format data :
  dict_free data = true ->
  forall parent_key separator index_format,
    flatten_json str_format data parent_key separator index_format true
    = flatten_json str_format data parent_key separator index_format false.
Proof.
  induction data as [| | | | |items IH|items IH|t] using pyvalue_ind;
    intros Hfree parent_key sep fmt; try reflexivity; try discriminate.
  rewrite dict_free_list in Hfree. rewrite !flatten_json_list.
  apply gfor_ext. apply Forall_forall. intros [i item] Hin.
  apply in_enumerate_from in Hin.
  rewrite forallb_forall in Hfree. rewrite Forall_forall in IH.
  unfold list_step.
  destruct (str_format fmt i) as [idx|[m| | | | |]]; try reflexivity;
    apply IH; auto.
Qed.

(** With validation off no key-validation error is raised. *)
Lemma no_validation_error_when_off str_format data :
  forall parent_key separator index_format e,
    raised (flatten_json str_format data parent_key separator index_format false)
    = Some e ->
    is_key_validation_error e = false.
Proof.
  induction data as [| | | | |items IH|items IH|t] using pyvalue_ind;
    intros parent_key sep fmt e; try discriminate.
  - rewrite flatten_json_dict. intros H.
    apply gfor_raised in H as ([[key|t] value] & Hin & Hr).
    + rewrite Forall_forall in IH. simpl in Hr. eapply (IH _ Hin). exact Hr.
    + simpl in Hr. injection Hr as <-. reflexivity.
  - rewrite flatten_json_list. intros H.
    apply gfor_raised in H as ([i item] & Hin & Hr).
    apply in_enumerate_from in Hin. rewrite Forall_forall in IH.
    unfold list_step in Hr.
    destruct (str_format fmt i) as [idx|[m| | | | |]];
      try (injection Hr as <-; reflexivity); eapply (IH _ Hin); exact Hr.
  - simpl. intros [= <-]. reflexivity.
Qed.

(** A key-validation error that ends the flattening of an array was raised
    inside the flattening of one of its elements, started under the
    unchecked key of that element. *)
Lemma list_step_raises_no_validation_error str_format items parent_key
    separator index_format validate_keys e :
  raised (flatten_json str_format (PyList items) parent_key separator
            index_format validate_keys) = Some e ->
  is_key_validation_error e = true ->
  exists i item,
    In (i, item) (enumerate items)
    /\ raised (flatten_json str_format item
                 (idx_key parent_key separator
                    (segment str_format index_format i))
                 separator index_format validate_keys) = Some e.
Proof.
  rewrite flatten_json_list. intros H He.
  apply gfor_raised in H as ([i item] & Hin & Hr).
  exists i, item. split; [exact Hin|].
  unfold list_step in Hr. unfold segment.
  destruct (str_format index_format i) as [idx|[m| | | | |]];
    try exact Hr; injection Hr as <-; discriminate.
Qed.

(** C10: with key validation on, only the keys composed at object-field
    steps are checked.  The turn of the loop over an array hands the key
    it composes to the recursive call unchecked, so a key-validation error
    can only come from inside an element; a value built of arrays and
    primitives alone is flattened exactly as with validation off and
    raises no key-validation error, whatever the length or the characters
    of its keys: a key that passes 256 characters through an index
    segment, or takes a comma, a carriage return or a line feed from the
    rendered index format, is yielded. *)
Theorem index_keys_are_not_validated str_format (data : pyvalue)
    (items : list pyvalue) (parent_key separator index_format : string) :
  flatten_json str_format (PyList items) parent_key separator index_format true
  = gfor (enumerate items)
      (fun ix =>
         match str_format index_format (fst ix) with
         | Rendered idx =>
             flatten_json str_format (snd ix)
               (idx_key parent_key separator idx) separator index_format true
         | FormatRaises (ValueError _) =>
             flatten_json str_format (snd ix)
               (idx_key parent_key separator (str (fst ix))) separator
               index_format true
         | FormatRaises e => raise e
         end)
  /\ (forall e,
        raised (flatten_json str_format (PyList items) parent_key separator
                  index_format true) = Some e ->
        is_key_validation_error e = true ->
        exists i item,
          In (i, item) (enumerate items)
          /\ raised (flatten_json str_format item
                       (idx_key parent_key separator
                          (segment str_format index_format i))
                       separator index_format true) = Some e)
  /\ (dict_free data = true ->
      flatten_json str_format data parent_key separator index_format true
      = flatten_json str_format data parent_key separator index_format false
      /\ forall e,
           raised (flatten_json str_format data parent_key separator
                     index_format true) = Some e ->
           is_key_validation_error e = false)
  /\ (let long_key := fill 256 "k" ++ "_0000" in
      flatten_json py_format (PyList [PyInt 1]) (fill 256 "k") "_" INDEX_FORMAT true
      = Gen [(long_key, PyInt 1)] None
      /\ (MAX_KEY_LENGTH <? String.length long_key)%nat = true)
  /\ (flatten_json py_format (PyList [PyInt 1]) "f" "_" "{}," true
      = Gen [("f_0,", PyInt 1)] None
      /\ has_csv_breaking_char "f_0," = true)
  /\ (let fmt := String CR (String LF "{}") in
      let key := "f_" ++ String CR (String LF "0") in
      flatten_json py_format (PyList [PyInt 1]) "f" "_" fmt true
      = Gen [(key, PyInt 1)] None
      /\ has_csv_breaking_char key = true).
Proof.
  split; [|split; [|split; [|repeat split; vm_compute; reflexivity]]].
  - rewrite flatten_json_list. apply gfor_ext, Forall_forall.
    intros [i item] _. reflexivity.
  - intros e. apply list_step_raises_no_validation_error.
  - intros Hfree.
    pose proof (dict_free_ignores_validation str_format data Hfree parent_key
                  separator index_format) as E.
    split; [exact E|]. intros e He. rewrite E in He.
    eapply no_validation_error_when_off; exact He.
Qed.

(** Nested arrays under a parent key of 300 commas, and an array whose
    element is rejected at its own object-field step *)
Lemma index_keys_are_not_validated_witness :
  let data := PyList [PyList [PyInt 1; PyStr "s"]; PyNone] in
  flatten_json py_format data (fill 300 ",") "," INDEX_FORMAT true
  = flatten_json py_format data (fill 300 ",") "," INDEX_FORMAT false
  /\ (forall e,
        raised (flatten_json py_format data (fill 300 ",") "," INDEX_FORMAT true)
        = Some e ->
        is_key_validation_error e = false)
  /\ exists i item,
       In (i, item) (enumerate [PyDict [(KStr "a,", PyInt 1)]])
       /\ raised (flatten_json py_format item
                    (idx_key "f" "_" (segment py_format INDEX_FORMAT i))
                    "_" INDEX_FORMAT true)
          = Some (ValueError (Key_has_invalid_characters "f_0000_a,")).
Proof.
  intros data.
  pose proof (index_keys_are_not_validated py_format data
                [PyDict [(KStr "a,", PyInt 1)]] "f" "_" INDEX_FORMAT)
    as (_ & Hin & _).
  pose proof (index_keys_are_not_validated py_format data [] (fill 300 ",") ","
                INDEX_FORMAT) as (_ & _ & Hfree & _).
  destruct (Hfree eq_refl) as [E Hno].
  split; [exact E|]. split; [exact Hno|].
  apply Hin; reflexivity.
Defined.

Lemma gfor_app {A B} (body : A -> generator B) l1 l2 :
  gfor (l1 ++ l2)%list body = gfor l1 body ;; gfor l2 body.
Proof.
  induction l1 as [|x rest IH]; simpl.
  - now rewrite gseq_stop_l.
  - fold (gfor (rest ++ l2)%list body) (gfor rest body).
    now rewrite IH, gseq_assoc.
Qed.

(** At an object-field step, with validation on, a composed key longer
    than [MAX_KEY_LENGTH] or holding a comma, a carriage return or a line
    feed ends the flattening with a key-validation error, after the rows
    of the fields before it. *)
Lemma object_keys_are_validated str_format before key value after
    parent_key separator index_format :
  let nk := new_key parent_key separator key in
  key_passes nk = false ->
  exists e,
    flatten_json str_format
      (PyDict (before ++ (KStr key, value) :: after)%list)
      parent_key separator index_format true
    = flatten_json str_format (PyDict before) parent_key separator
        index_format true ;; raise e
    /\ is_key_validation_error e = true
    /\ e = (if (MAX_KEY_LENGTH <? String.length nk)%nat
            then ValueError (Key_too_long nk)
            else ValueError (Key_has_invalid_characters nk)).
Proof.
  intros nk Hk. unfold key_passes in Hk.
  eexists. split; [|split; [|reflexivity]].
  - rewrite !flatten_json_dict, gfor_app. f_equal.
    cbn [gfor fold_right dict_step]. fold nk. simpl andb.
    destruct (MAX_KEY_LENGTH <? String.length nk)%nat; [reflexivity|].
    simpl in Hk. apply negb_false_iff in Hk. rewrite Hk. reflexivity.
  - destruct (MAX_KEY_LENGTH <? String.length nk)%nat; reflexivity.
Qed.

(** With validation off the same keys go through flattening, and the
    writer replaces their commas by underscores. *)
Lemma unvalidated_keys_are_sanitized :
  let rows := flatten_json py_format
                (PyDict [(KStr "a,b", PyInt 1); (KStr (fill 300 "k"), PyInt 2)])
                "f" "_" INDEX_FORMAT false in
  rows = Gen [("f_a,b", PyInt 1); ("f_" ++ fill 300 "k", PyInt 2)] None
  /\ write_csv rows reliable
     = (Some [Header CSV_HEADERS; Record_ "f_a_b" (PyInt 1);
              Record_ ("f_" ++ fill 300 "k") (PyInt 2)],
        Returns 2).
Proof. split; vm_compute; reflexivity. Qed.

Lemma replace_comma_free key :
  char_in COMMA (replace COMMA "_" key) = false.
Proof.
  induction key as [|c rest IH]; [reflexivity|]. cbn [replace char_in].
  rewrite IH, orb_false_r.
  destruct (Ascii.eqb c COMMA) eqn:E; [reflexivity|].
  now rewrite Ascii.eqb_sym.
Qed.

(** C2, where the code departs from it: with validation on and the default
    maximum of 256, the object [{"kkk...k": [1]}] (a field name of 250
    characters) under the prefix ["f"] composes the key ["f_kkk...k"] of
    252 characters, which passes, and then the key ["f_kkk...k_0000"] of
    257 characters at the array-index step, which is yielded and written;
    likewise the key ["f_a_0,"] composed with the index format ["{},"]
    holds a comma and is yielded. *)
Theorem validation_skips_index_keys :
  let field := fill 250 "k" in
  let long_key := "f_" ++ field ++ "_0000" in
  process_json_data py_format (PyDict [(KStr field, PyList [PyInt 1])])
    "f" "_" INDEX_FORMAT true
  = Gen [(long_key, PyInt 1)] None
  /\ String.length long_key = 257
  /\ key_passes long_key = false
  /\ process_json_data py_format (PyDict [(KStr "a", PyList [PyInt 1])])
       "f" "_" "{}," true
     = Gen [("f_a_0,", PyInt 1)] None
  /\ key_passes "f_a_0," = false.
Proof. repeat split; vm_compute; reflexivity. Qed.

(** ** Separator validation *)

Lemma has_csv_breaking_char_spec s :
  has_csv_breaking_char s = true
  <-> char_in COMMA s = true \/ char_in LF s = true \/ char_in CR s = true.
Proof.
  unfold has_csv_breaking_char. simpl. rewrite orb_false_r, !orb_true_iff.
  tauto.
Qed.

(** A separator holding a comma, a line feed or a carriage return is
    rejected by [parse_arguments], and [run] then ends before any file is
    loaded or flattened: its result does not depend on the files. *)
Lemma breaking_separator_rejected str_format args found dest :
  has_csv_breaking_char (separator args) = true ->
  parse_arguments str_format args
  = Raises (ValueError Separator_cannot_be_empty_a_comma_or_a_newline)
  /\ run str_format args found dest
     = {| ending := Initialization_failed
                      (ValueError Separator_cannot_be_empty_a_comma_or_a_newline);
          output := None; skipping := [] |}.
Proof.
  intros H. unfold run, parse_arguments. rewrite H. split; reflexivity.
Qed.

(** [flatten_json] itself never looks at the separator: called with a
    comma as separator and validation off, it composes keys with it. *)
Lemma separator_not_checked_per_key :
  flatten_json py_format (PyDict [(KStr "a", PyDict [(KStr "b", PyInt 1)])])
    "f" "," INDEX_FORMAT false
  = Gen [("f,a,b", PyInt 1)] None.
Proof. vm_compute. reflexivity. Qed.

(** C3, where the code departs from it: the empty separator is not
    rejected.  [parse_arguments] returns the arguments unchanged and [run]
    goes on to flatten with it, joining the segments without any
    separator: the file [f.json] holding [{"a": {"b": 1}}] gives the row
    [fab,1]. *)
Theorem empty_separator_is_accepted :
  let args := {| separator := ""; index_format := INDEX_FORMAT;
                 validate_keys := false |} in
  has_csv_breaking_char "" = false
  /\ parse_arguments py_format args = Returns args
  /\ run py_format args
       (Returns [{| stem := "f";
                    content := Parsed (PyDict [(KStr "a",
                                                PyDict [(KStr "b", PyInt 1)])]) |}])
       reliable
     = {| ending := Successfully_wrote 1;
          output := Some [Header CSV_HEADERS; Record_ "fab" (PyInt 1)];
          skipping := [] |}.
Proof. repeat split; vm_compute; reflexivity. Qed.

(** ** Per-file isolation *)

(** A file that fails with a [ValueError] does not stop the loop: the
    files after it are handled as if it had not failed. *)
Lemma for_json_files_continues str_format args f rest all_data skipped e :
  failure str_format args f = Some e -> is_ValueError e = true ->
  for_json_files str_format args (f :: rest) all_data skipped
  = for_json_files str_format args rest
      (all_data ++ contribution str_format args f)%list (skipped ++ [e])%list.
Proof.
  unfold failure, contribution. cbn [for_json_files].
  destruct (load_json_data f) as [data|e'].
  - intros -> ->. reflexivity.
  - intros [= ->] ->. now rewrite app_nil_r.
Qed.

Lemma for_json_files_next str_format args f rest all_data skipped :
  failure str_format args f = None ->
  for_json_files str_format args (f :: rest) all_data skipped
  = for_json_files str_format args rest
      (all_data ++ contribution str_format args f)%list skipped.
Proof.
  unfold failure, contribution. cbn [for_json_files].
  destruct (load_json_data f) as [data|e']; [|discriminate].
  intros ->. reflexivity.
Qed.

(** When every failure is a [ValueError] the loop ends with the
    contributions of all the files, in order. *)
Lemma for_json_files_collects str_format args files :
  Forall (fun f => forall e, failure str_format args f = Some e -> is_ValueError e = true)
    files ->
  forall all_data skipped,
  exists skipped',
    for_json_files str_format args files all_data skipped
    = ((all_data ++ concat (map (contribution str_format args) files))%list,
       skipped', None).
Proof.
  induction 1 as [|f rest Hf _ IH]; intros all_data skipped.
  - exists skipped. simpl. now rewrite app_nil_r.
  - destruct (failure str_format args f) as [e|] eqn:E.
    + rewrite (for_json_files_continues _ _ _ _ _ _ e E (Hf e eq_refl)).
      destruct (IH (all_data ++ contribution str_format args f)%list
                   (skipped ++ [e])%list) as [s' Hs'].
      exists s'. rewrite Hs'. simpl. now rewrite app_assoc.
    + rewrite (for_json_files_next _ _ _ _ _ _ E).
      destruct (IH (all_data ++ contribution str_format args f)%list skipped)
        as [s' Hs'].
      exists s'. rewrite Hs'. simpl. now rewrite app_assoc.
Qed.

(** C5, where the code departs from it: the file [a.json] holding
    [[{"x": 1}, 2]] fails while it is flattened (its second element is not
    an object) and is reported as skipped, yet the row [a_x,1] yielded
    before the failure stays in the accumulated output and is written
    with the row of the next file [b.json]. *)
Theorem skipped_file_keeps_partial_rows :
  let args := {| separator := KEY_SEPARATOR; index_format := INDEX_FORMAT;
                 validate_keys := false |} in
  let a := {| stem := "a";
              content := Parsed (PyList [PyDict [(KStr "x", PyInt 1)]; PyInt 2]) |} in
  let b := {| stem := "b"; content := Parsed (PyDict [(KStr "y", PyInt 3)]) |} in
  failure py_format args a = Some (ValueError (Must_be_dicts "int"))
  /\ contribution py_format args a = [("a_x", PyInt 1)]
  /\ run py_format args (Returns [a; b]) reliable
     = {| ending := Successfully_wrote 2;
          output := Some [Header CSV_HEADERS; Record_ "a_x" (PyInt 1);
                          Record_ "b_y" (PyInt 3)];
          skipping := [ValueError (Must_be_dicts "int")] |}.
Proof. repeat split; vm_compute; reflexivity. Qed.


(** * Further properties of the code *)

(** ** More on generators *)

Lemma gfor_yielded_in {A B} (body : A -> generator B) l r :
  In r (yielded (gfor l body)) ->
  exists x, In x l /\ In r (yielded (body x)).
Proof.
  induction l as [|x rest IH]; [intros []|].
  cbn [gfor fold_right]. fold (gfor rest body). unfold gseq.
  destruct (raised (body x)); simpl.
  - intros H. exists x. split; [now left|assumption].
  - intros H. apply in_app_or in H as [H|H].
    + exists x. split; [now left|assumption].
    + destruct (IH H) as (y & Hy & Hr). exists y. split; [now right|assumption].
Qed.

Lemma gfor_Forall_yielded {A B} (P : B -> Prop) (body : A -> generator B) l :
  Forall (fun x => Forall P (yielded (body x))) l ->
  Forall P (yielded (gfor l body)).
Proof.
  intros H. apply Forall_forall. intros r Hr.
  apply gfor_yielded_in in Hr as (x & Hx & Hr).
  rewrite Forall_forall in H. specialize (H x Hx).
  rewrite Forall_forall in H. now apply H.
Qed.

Lemma gfor_returns_all {A B} (body : A -> generator B) l :
  Forall (fun x => raised (body x) = None) l -> raised (gfor l body) = None.
Proof.
  induction 1 as [|x rest Hx _ IH]; [reflexivity|].
  cbn [gfor fold_right]. fold (gfor rest body).
  apply gseq_returns. now split.
Qed.

Lemma gfor_returns_inv {A B} (body : A -> generator B) l :
  raised (gfor l body) = None -> Forall (fun x => raised (body x) = None) l.
Proof.
  induction l as [|x rest IH]; [constructor|].
  cbn [gfor fold_right]. fold (gfor rest body).
  intros H. apply gseq_returns in H as [H1 H2]. constructor; auto.
Qed.

Lemma Forall_enumerate {A} (P : A -> Prop) (Q : nat * A -> Prop) (l : list A) :
  (forall i x, P x -> Q (i, x)) -> Forall P l -> Forall Q (enumerate l).
Proof. intros HPQ H. now apply (Forall_enumerate_from P Q l HPQ H 0). Qed.

(** The loop of [process_json_data] over a top-level array, as a fold *)
Lemma process_json_data_list str_format items file_prefix separator
    index_format validate_keys :
  process_json_data str_format (PyList items) file_prefix separator
    index_format validate_keys
  = gfor items (fun item =>
      match item with
      | PyDict _ =>
          flatten_json str_format item file_prefix separator index_format
            validate_keys
      | _ => raise (ValueError (Must_be_dicts (type_name item)))
      end).
Proof.
  unfold process_json_data.
  induction items as [|item rest IH]; [reflexivity|].
  cbn [gfor fold_right]. unfold gfor in IH. rewrite <- IH.
  destruct item; reflexivity.
Qed.

(** ** What the rows are *)

Lemma string_append_assoc (s1 s2 s3 : string) :
  (s1 ++ s2) ++ s3 = s1 ++ s2 ++ s3.
Proof. induction s1 as [|c s1 IH]; simpl; [reflexivity|now rewrite IH]. Qed.

Lemma new_key_extends parent_key separator key :
  exists rest, new_key parent_key separator key = parent_key ++ rest.
Proof.
  unfold new_key. destruct parent_key as [|c p]; simpl.
  - now exists key.
  - now exists (separator ++ key).
Qed.

Lemma idx_key_extends parent_key separator idx :
  exists rest, idx_key parent_key separator idx = parent_key ++ rest.
Proof. exact (new_key_extends parent_key separator idx). Qed.

Lemma flatten_json_rows str_format data :
  forall parent_key separator index_format validate_keys,
    Forall (fun r => is_primitive (snd r) = true
                     /\ exists rest, fst r = parent_key ++ rest)
      (yielded (flatten_json str_format data parent_key separator index_format
                  validate_keys)).
Proof.
  induction data as [| | | | |items IH|items IH|t] using pyvalue_ind;
    intros parent_key sep fmt v;
    try (repeat constructor; exists ""; simpl; now rewrite append_empty_r).
  - rewrite flatten_json_dict. apply gfor_Forall_yielded.
    eapply Forall_impl; [|exact IH]. intros [[key|t] value] Hv; simpl.
    + destruct (v && _); [constructor|].
      destruct (v && _); [constructor|].
      eapply Forall_impl; [|apply Hv]. intros r [Hp (rest & Hr)].
      split; [exact Hp|].
      destruct (new_key_extends parent_key sep key) as [rest' E].
      exists (rest' ++ rest). now rewrite Hr, E, string_append_assoc.
    + constructor.
  - rewrite flatten_json_list. apply gfor_Forall_yielded.
    apply Forall_enumerate with (P := fun item =>
      forall parent_key sep fmt v,
        Forall (fun r => is_primitive (snd r) = true
                         /\ exists rest, fst r = parent_key ++ rest)
          (yielded (flatten_json str_format item parent_key sep fmt v)));
      [|exact IH].
    intros i item Hitem. simpl.
    assert (K : forall idx,
      Forall (fun r => is_primitive (snd r) = true
                       /\ exists rest, fst r = parent_key ++ rest)
        (yielded (flatten_json str_format item (idx_key parent_key sep idx)
                    sep fmt v))).
    { intros idx. eapply Forall_impl; [|apply Hitem].
      intros r [Hp (rest & Hr)]. split; [exact Hp|].
      destruct (idx_key_extends parent_key sep idx) as [rest' E].
      exists (rest' ++ rest). now rewrite Hr, E, string_append_assoc. }
    destruct (str_format fmt i) as [idx|[m| | | | |]];
      try apply K; constructor.
Qed.

(** Every row that [process_json_data] yields, whether or not it raises
    afterwards, carries a primitive value (never a [dict], a [list] or a
    value of an unsupported type) under a key that starts with the file
    prefix. *)
Theorem rows_are_prefixed_leaves str_format (data : pyvalue)
    (file_prefix separator index_format : string) (validate_keys : bool) :
  Forall (fun r => is_primitive (snd r) = true
                   /\ exists rest, fst r = file_prefix ++ rest)
    (yielded (process_json_data str_format data file_prefix separator
                index_format validate_keys)).
Proof.
  destruct data; try constructor.
  - apply flatten_json_rows.
  - rewrite process_json_data_list. apply gfor_Forall_yielded.
    apply Forall_forall. intros item _.
    destruct item; try constructor. apply flatten_json_rows.
Qed.

(** ** Flattening what [json.load] builds *)

Lemma json_value_dict items :
  json_value (PyDict items) = true ->
  Forall (fun kv => (exists key, fst kv = KStr key)
                    /\ json_value (snd kv) = true) items.
Proof.
  simpl. induction items as [|[[key|t] value] rest IH]; intros H.
  - constructor.
  - apply andb_true_iff in H as [H1 H2]. constructor; [|now apply IH].
    split; [now exists key|exact H1].
  - discriminate.
Qed.

Lemma json_value_list items :
  json_value (PyList items) = true ->
  Forall (fun item => json_value item = true) items.
Proof.
  simpl. induction items as [|item rest IH]; intros H; [constructor|].
  apply andb_true_iff in H as [H1 H2]. constructor; [exact H1|now apply IH].
Qed.

Lemma Forall_and_impl {A} (P Q R : A -> Prop) l :
  Forall P l -> Forall Q l -> (forall x, P x -> Q x -> R x) -> Forall R l.
Proof.
  intros HP HQ H. apply Forall_forall. intros x Hx.
  rewrite Forall_forall in HP, HQ. auto.
Qed.

Lemma flatten_json_returns str_format index_format data :
  (forall i, escapes str_format index_format i = None) ->
  json_value data = true ->
  forall parent_key separator,
    raised (flatten_json str_format data parent_key separator index_format
              false) = None.
Proof.
  intros Hesc.
  induction data as [| | | | |items IH|items IH|t] using pyvalue_ind;
    intros Hjson parent_key sep; try reflexivity; try discriminate.
  - rewrite flatten_json_dict. apply gfor_returns_all.
    apply (Forall_and_impl _ _ _ _ IH (json_value_dict _ Hjson)).
    intros [k value] Hv [[key Hk] Hj]. simpl in Hk; subst k. simpl.
    now apply Hv.
  - rewrite flatten_json_list. apply gfor_returns_all.
    apply Forall_enumerate with (P := fun item =>
      forall parent_key sep,
        raised (flatten_json str_format item parent_key sep index_format false)
        = None).
    + intros i item Hitem. simpl. specialize (Hesc i). unfold escapes in Hesc.
      destruct (str_format index_format i) as [idx|[m| | | | |]];
        try discriminate; apply Hitem.
    + apply (Forall_and_impl _ _ _ _ IH (json_value_list _ Hjson)). auto.
Qed.

Lemma default_index_format_never_escapes i :
  escapes py_format INDEX_FORMAT i = None.
Proof. unfold escapes. now rewrite default_index_format. Qed.

(** With validation off, flattening a value as [json.load] builds it
    (string keys, JSON types only) returns without an exception and
    yields exactly one row per primitive leaf, provided no index fails to
    render with an exception other than [ValueError]; with the default
    index format this holds for every such value. *)
Theorem parsed_json_flattens_without_error str_format (data : pyvalue)
    (parent_key separator index_format : string) :
  json_value data = true ->
  ((forall i, escapes str_format index_format i = None) ->
   raised (flatten_json str_format data parent_key separator index_format
             false) = None
   /\ length (yielded (flatten_json str_format data parent_key separator
                         index_format false))
      = count_leaves data)
  /\ raised (flatten_json py_format data parent_key separator INDEX_FORMAT
               false) = None
  /\ length (yielded (flatten_json py_format data parent_key separator
                        INDEX_FORMAT false))
     = count_leaves data.
Proof.
  intros Hjson.
  assert (K : forall sf fmt, (forall i, escapes sf fmt i = None) ->
    raised (flatten_json sf data parent_key separator fmt false) = None
    /\ length (yielded (flatten_json sf data parent_key separator fmt false))
       = count_leaves data).
  { intros sf fmt Hesc.
    pose proof (flatten_json_returns sf fmt data Hesc Hjson parent_key
                  separator) as R.
    split; [exact R|]. now apply flatten_json_counts_leaves. }
  split; [apply K|]. apply K, default_index_format_never_escapes.
Qed.

(** A document of five leaves under nested containers, two of them empty *)
Lemma parsed_json_flattens_without_error_witness :
  let data :=
    PyDict [(KStr "a", PyList [PyInt 1; PyDict []; PyList [PyNone; PyStr "s"]]);
            (KStr "b", PyDict [(KStr "c", PyBool true); (KStr "d", PyList [])]);
            (KStr "e", PyFloat 0)] in
  raised (flatten_json py_format data "f" "_" INDEX_FORMAT false) = None
  /\ length (yielded (flatten_json py_format data "f" "_" INDEX_FORMAT false))
     = 5.
Proof.
  intros data.
  exact (proj2 (parsed_json_flattens_without_error py_format data "f" "_"
                  INDEX_FORMAT eq_refl)).
Defined.

(** ** What validation changes *)

Lemma cut_short_refl {A} (g : generator A) : cut_short g g.
Proof. split; [exists []; now rewrite app_nil_r|reflexivity]. Qed.

Lemma cut_short_raise {A} e (g : generator A) : cut_short (raise e) g.
Proof. split; [now exists (yielded g)|discriminate]. Qed.

Lemma gseq_cut_short {A} (a b c d : generator A) :
  cut_short a b -> cut_short c d -> cut_short (a ;; c) (b ;; d).
Proof.
  intros [[r1 E1] F1] [[r2 E2] F2].
  destruct a as [ya [e|]].
  - split; [|discriminate]. unfold gseq at 2. simpl in *.
    unfold gseq. destruct (raised b); simpl; rewrite E1.
    + now exists r1.
    + exists (r1 ++ yielded d)%list. now rewrite app_assoc.
  - specialize (F1 eq_refl). subst b. split.
    + unfold gseq. simpl. rewrite E2. exists r2. now rewrite app_assoc.
    + intros H. apply gseq_returns in H as [_ H]. now rewrite (F2 H).
Qed.

Lemma gfor_cut_short {A B} (f g : A -> generator B) l :
  Forall (fun x => cut_short (f x) (g x)) l ->
  cut_short (gfor l f) (gfor l g).
Proof.
  induction 1 as [|x rest Hx _ IH]; [apply cut_short_refl|].
  cbn [gfor fold_right]. now apply gseq_cut_short.
Qed.

(** Key validation never changes a row: the rows yielded with validation
    on are the first rows yielded with validation off, and when the
    flattening with validation on returns, both flattenings are the
    same. *)
Theorem validation_only_cuts_short str_format (data : pyvalue)
    (parent_key separator index_format : string) :
  cut_short
    (flatten_json str_format data parent_key separator index_format true)
    (flatten_json str_format data parent_key separator index_format false).
Proof.
  revert parent_key.
  induction data as [| | | | |items IH|items IH|t] using pyvalue_ind;
    intros parent_key; try apply cut_short_refl.
  - rewrite !flatten_json_dict. apply gfor_cut_short.
    eapply Forall_impl; [|exact IH]. intros [[key|t] value] Hv; simpl.
    + destruct (_ <? _)%nat; [apply cut_short_raise|].
      destruct (has_csv_breaking_char _); [apply cut_short_raise|]. apply Hv.
    + apply cut_short_refl.
  - rewrite !flatten_json_list. apply gfor_cut_short.
    apply Forall_enumerate with (P := fun item =>
      forall parent_key,
        cut_short
          (flatten_json str_format item parent_key separator index_format true)
          (flatten_json str_format item parent_key separator index_format
             false)); [|exact IH].
    intros i item Hitem. simpl.
    destruct (str_format index_format i) as [idx|[m| | | | |]];
      try apply Hitem; apply cut_short_refl.
Qed.

(** A second field whose key holds a comma: one row with validation on,
    both rows with validation off *)
Lemma validation_only_cuts_short_witness :
  let data := PyDict [(KStr "a", PyInt 1); (KStr "b,", PyInt 2)] in
  (exists rest,
     [("f_a", PyInt 1); ("f_b,", PyInt 2)] = ([("f_a", PyInt 1)] ++ rest)%list)
  /\ (raised (flatten_json py_format (PyDict [(KStr "a", PyInt 1)]) "f" "_"
                INDEX_FORMAT true) = None ->
      flatten_json py_format (PyDict [(KStr "a", PyInt 1)]) "f" "_"
        INDEX_FORMAT true
      = flatten_json py_format (PyDict [(KStr "a", PyInt 1)]) "f" "_"
          INDEX_FORMAT false).
Proof.
  intros data. split.
  - exact (proj1 (validation_only_cuts_short py_format data "f" "_"
                    INDEX_FORMAT)).
  - exact (proj2 (validation_only_cuts_short py_format
                    (PyDict [(KStr "a", PyInt 1)]) "f" "_" INDEX_FORMAT)).
Defined.

Lemma list_free_dict items :
  list_free (PyDict items) = true ->
  Forall (fun kv => list_free (snd kv) = true) items.
Proof.
  simpl. induction items as [|[k value] rest IH]; intros H; [constructor|].
  apply andb_true_iff in H as [H1 H2]. constructor; [exact H1|now apply IH].
Qed.

Lemma flatten_json_checked_keys str_format data :
  list_free data = true ->
  forall parent_key separator index_format,
    Forall (fun r => fst r = parent_key \/ key_passes (fst r) = true)
      (yielded (flatten_json str_format data parent_key separator index_format
                  true)).
Proof.
  induction data as [| | | | |items IH|items IH|t] using pyvalue_ind;
    intros Hfree parent_key sep fmt; try discriminate;
    try (repeat constructor; now left).
  rewrite flatten_json_dict. apply gfor_Forall_yielded.
  apply (Forall_and_impl _ _ _ _ IH (list_free_dict _ Hfree)).
  intros [[key|t] value] Hv Hf; simpl in *; [|constructor].
  destruct (_ <? _)%nat eqn:Hlen; [constructor|].
  destruct (has_csv_breaking_char _) eqn:Hchr; [constructor|].
  eapply Forall_impl; [|apply (Hv Hf)]. intros r [Hr|Hr]; right; [|exact Hr].
  rewrite Hr. unfold key_passes. now rewrite Hlen, Hchr.
Qed.

(** With validation on, every row yielded while flattening an object that
    holds no array at any depth has a key that passed the checks: at most
    [MAX_KEY_LENGTH] characters and no comma, carriage return or line
    feed. *)
Theorem validated_object_keys_pass str_format
    (items : list (pykey * pyvalue))
    (parent_key separator index_format : string) :
  list_free (PyDict items) = true ->
  Forall (fun r => (String.length (fst r) <= MAX_KEY_LENGTH)%nat
                   /\ has_csv_breaking_char (fst r) = false)
    (yielded (flatten_json str_format (PyDict items) parent_key separator
                index_format true)).
Proof.
  intros Hfree. rewrite flatten_json_dict. apply gfor_Forall_yielded.
  apply Forall_forall. intros [[key|t] value] Hin; simpl; [|constructor].
  destruct (_ <? _)%nat eqn:Hlen; [constructor|].
  destruct (has_csv_breaking_char _) eqn:Hchr; [constructor|].
  pose proof (list_free_dict _ Hfree) as Hall.
  rewrite Forall_forall in Hall. specialize (Hall _ Hin). simpl in Hall.
  eapply Forall_impl;
    [|apply (flatten_json_checked_keys str_format value Hall)].
  apply Nat.ltb_ge in Hlen.
  intros r [Hr|Hr].
  - rewrite Hr. now split.
  - unfold key_passes in Hr. apply andb_true_iff in Hr as [H1 H2].
    apply negb_true_iff in H1, H2. apply Nat.ltb_ge in H1. now split.
Qed.

(** Nested objects whose keys all pass, then a field whose key holds a
    comma *)
Lemma validated_object_keys_pass_witness :
  Forall (fun r => (String.length (fst r) <= MAX_KEY_LENGTH)%nat
                   /\ has_csv_breaking_char (fst r) = false)
    (yielded (flatten_json py_format
       (PyDict [(KStr "a", PyDict [(KStr "b", PyInt 1)]); (KStr "c", PyNone);
                (KStr "d,", PyInt 2)])
       "f" "_" INDEX_FORMAT true)).
Proof.
  exact (validated_object_keys_pass py_format
           [(KStr "a", PyDict [(KStr "b", PyInt 1)]); (KStr "c", PyNone);
            (KStr "d,", PyInt 2)]
           "f" "_" INDEX_FORMAT eq_refl).
Defined.

(** ** Errors raised while flattening *)

(** Where a dictionary has a key that is not a [str], the flattening ends
    there with [ValueError("Keys must be str, got ...")] naming the type of
    the key, after the rows of the fields before it, with validation on
    or off; neither the value under that key nor the fields after it are
    visited. *)
Theorem non_str_key_ends_flattening str_format
    (before after : list (pykey * pyvalue)) (t : string) (value : pyvalue)
    (parent_key separator index_format : string) (validate_keys : bool) :
  let rows := flatten_json str_format
                (PyDict (before ++ (KOther t, value) :: after)%list)
                parent_key separator index_format validate_keys in
  let rows_before := flatten_json str_format (PyDict before) parent_key
                       separator index_format validate_keys in
  rows = rows_before ;; raise (ValueError (Keys_must_be_str t))
  /\ (raised rows_before = None ->
      rows = Gen (yielded rows_before) (Some (ValueError (Keys_must_be_str t)))).
Proof.
  intros rows rows_before. subst rows rows_before.
  assert (E : flatten_json str_format
                (PyDict (before ++ (KOther t, value) :: after)%list)
                parent_key separator index_format validate_keys
              = flatten_json str_format (PyDict before) parent_key separator
                  index_format validate_keys
                ;; raise (ValueError (Keys_must_be_str t))).
  { rewrite !flatten_json_dict, gfor_app. reflexivity. }
  split; [exact E|]. intros H. rewrite E. unfold gseq. rewrite H. simpl.
  now rewrite app_nil_r.
Qed.

(** A key of type [int] between two fields *)
Lemma non_str_key_ends_flattening_witness :
  flatten_json py_format
    (PyDict [(KStr "a", PyInt 1); (KOther "int", PyInt 2); (KStr "c", PyInt 3)])
    "f" "_" INDEX_FORMAT false
  = Gen [("f_a", PyInt 1)] (Some (ValueError (Keys_must_be_str "int"))).
Proof.
  exact (proj2 (non_str_key_ends_flattening py_format [(KStr "a", PyInt 1)]
                  [(KStr "c", PyInt 3)] "int" (PyInt 2) "f" "_" INDEX_FORMAT
                  false) eq_refl).
Defined.

(** In a top-level array, the first element that is not an object ends
    [process_json_data] with [ValueError("Must be dicts, got ...")] naming
    its type, after the rows of the objects before it; a nested array or a
    primitive at the top level of an array is so rejected, although
    [flatten_json] itself would flatten them. *)
Theorem non_object_element_ends_processing str_format
    (objects : list (list (pykey * pyvalue))) (item : pyvalue)
    (rest : list pyvalue)
    (file_prefix separator index_format : string) (validate_keys : bool) :
  (forall items, item <> PyDict items) ->
  process_json_data str_format (PyList (map PyDict objects ++ item :: rest)%list)
    file_prefix separator index_format validate_keys
  = process_json_data str_format (PyList (map PyDict objects))
      file_prefix separator index_format validate_keys
    ;; raise (ValueError (Must_be_dicts (type_name item))).
Proof.
  intros Hitem. rewrite !process_json_data_list, gfor_app. f_equal.
  cbn [gfor fold_right].
  destruct item; try reflexivity. now destruct (Hitem items).
Qed.

(** An array in a top-level array, after one object *)
Lemma non_object_element_ends_processing_witness :
  process_json_data py_format
    (PyList [PyDict [(KStr "x", PyInt 1)]; PyList [PyInt 2];
             PyDict [(KStr "y", PyInt 3)]])
    "f" "_" INDEX_FORMAT false
  = Gen [("f_x", PyInt 1)] (Some (ValueError (Must_be_dicts "list"))).
Proof.
  refine (eq_trans
    (non_object_element_ends_processing py_format [[(KStr "x", PyInt 1)]]
       (PyList [PyInt 2]) [PyDict [(KStr "y", PyInt 3)]] "f" "_" INDEX_FORMAT
       false _) eq_refl).
  intros items. discriminate.
Defined.

(** ** The writer, line by line *)

Lemma replace_length old new s :
  String.length (replace old new s) = String.length s.
Proof. induction s as [|c s IH]; simpl; [reflexivity|now rewrite IH]. Qed.

Lemma replace_absent old new s :
  char_in old s = false -> replace old new s = s.
Proof.
  induction s as [|c s IH]; simpl; [reflexivity|]. intros H.
  apply orb_false_iff in H as [H1 H2]. rewrite Ascii.eqb_sym, H1.
  now rewrite IH.
Qed.

Lemma replace_keeps_other c old new s :
  Ascii.eqb c old = false -> Ascii.eqb c new = false ->
  char_in c (replace old new s) = char_in c s.
Proof.
  intros Ho Hn. induction s as [|d s IH]; simpl; [reflexivity|].
  rewrite IH. f_equal. destruct (Ascii.eqb d old) eqn:E.
  - apply Ascii.eqb_eq in E. subst d. now rewrite Hn, Ho.
  - reflexivity.
Qed.

Lemma write_rows_prefix dest data file row_count :
  exists k,
    fst (fst (write_rows dest data file row_count))
    = (file ++ firstn k (map written data))%list.
Proof.
  revert file row_count.
  induction data as [|[key value] rest IH]; intros file row_count; simpl.
  - exists 0. now rewrite app_nil_r.
  - destruct (refuses dest _ _).
    + exists 0. simpl. now rewrite app_nil_r.
    + destruct (IH (file ++ [Record_ (replace COMMA "_" key) value])%list
                   (S row_count)) as [k Hk].
      exists (S k). rewrite Hk, <- app_assoc. reflexivity.
Qed.

Lemma write_rows_complete dest data file row_count file' row_count' :
  write_rows dest data file row_count = (file', row_count', None) ->
  file' = (file ++ map written data)%list
  /\ row_count' = length data + row_count.
Proof.
  revert file row_count.
  induction data as [|[key value] rest IH]; intros file row_count; simpl.
  - intros [= <- <-]. now rewrite app_nil_r.
  - destruct (refuses dest _ _); [discriminate|].
    intros H. apply IH in H as [-> ->]. rewrite <- app_assoc. split;
      [reflexivity|lia].
Qed.

Lemma write_rows_refused dest data file row_count file' row_count' f :
  write_rows dest data file row_count = (file', row_count', Some f) ->
  exists n line, refuses dest n line = Some f.
Proof.
  revert file row_count.
  induction data as [|[key value] rest IH]; intros file row_count; simpl.
  - discriminate.
  - destruct (refuses dest _ _) as [g|] eqn:R.
    + intros [= _ _ <-]. eauto.
    + apply IH.
Qed.

(** The lines that [write_csv] gets accepted are always the first lines
    of: the header, then one line per row that [data] yields, in order.
    On a destination that opens and refuses no line they are all of them,
    also when [data] raises after them; the exception then leaves
    [write_csv] and the lines stay.  The key of each line has the length
    of the row's key and no comma, is the row's key itself when that had
    no comma, and keeps its carriage returns and line feeds; the value is
    the row's value. *)
Theorem written_file_is_sanitized (data : generator row)
    (dest : destination) :
  (opening dest = None ->
   exists k,
     fst (write_csv data dest)
     = Some (firstn k (Header CSV_HEADERS :: map written (yielded data))))
  /\ (opening dest = None -> (forall n line, refuses dest n line = None) ->
      fst (write_csv data dest)
      = Some (Header CSV_HEADERS :: map written (yielded data))
      /\ forall e, raised data = Some e ->
                   snd (write_csv data dest) = Raises (leaving dest (reraise e)))
  /\ Forall (fun r =>
       exists key,
         written r = Record_ key (snd r)
         /\ char_in COMMA key = false
         /\ String.length key = String.length (fst r)
         /\ (char_in COMMA (fst r) = false -> key = fst r)
         /\ char_in CR key = char_in CR (fst r)
         /\ char_in LF key = char_in LF (fst r))
     (yielded data).
Proof.
  split; [|split].
  - intros Ho. unfold write_csv. rewrite Ho.
    destruct (refuses dest 0 _); [now exists 0|].
    destruct (write_rows_prefix dest (yielded data) [Header CSV_HEADERS] 0)
      as [k Hk].
    destruct (write_rows dest (yielded data) [Header CSV_HEADERS] 0)
      as [[file rc] refused]. simpl in Hk. subst file.
    exists (S k).
    destruct refused; [reflexivity|].
    destruct (raised data); [reflexivity|].
    destruct (closes dest); [|reflexivity].
    destruct (rc =? 0)%nat; reflexivity.
  - intros Ho Hacc. unfold write_csv.
    rewrite Ho, Hacc, (write_rows_spec _ _ _ _ Hacc).
    split.
    + destruct (raised data); [reflexivity|].
      destruct (closes dest); [|reflexivity].
      destruct (_ =? 0)%nat; reflexivity.
    + intros e He. now rewrite He.
  - apply Forall_forall. intros [key value] _. exists (replace COMMA "_" key).
    split; [reflexivity|]. split; [apply replace_comma_free|].
    split; [apply replace_length|]. split; [apply replace_absent|].
    split; apply replace_keeps_other; reflexivity.
Qed.

(** Two rows, then an exception: both rows are accepted on the reliable
    destination; on a destination that refuses the third line, the header
    and the first row are *)
Lemma written_file_is_sanitized_witness :
  let data := Gen [("a,b", PyInt 1); ("c", PyNone)] (Some IndexError) in
  let full := {| opening := None;
                 refuses := fun n _ => if (n =? 2)%nat then Some OS_error
                                       else None;
                 closes := true |} in
  (fst (write_csv data reliable)
   = Some [Header CSV_HEADERS; Record_ "a_b" (PyInt 1); Record_ "c" PyNone]
   /\ snd (write_csv data reliable) = Raises IndexError)
  /\ exists k,
       fst (write_csv data full)
       = Some (firstn k [Header CSV_HEADERS; Record_ "a_b" (PyInt 1);
                         Record_ "c" PyNone]).
Proof.
  intros data full. split.
  - destruct (proj1 (proj2 (written_file_is_sanitized data reliable)) eq_refl
                (fun _ _ => eq_refl)) as [Hfile Hraise].
    split; [exact Hfile|exact (Hraise IndexError eq_refl)].
  - exact (proj1 (written_file_is_sanitized data full) eq_refl).
Defined.

(** ** Files that cannot be used *)

(** A file that is not valid JSON, is not valid UTF-8, or holds a
    primitive at top level (a number, a string, [true], [false] or
    [null]) is skipped as a whole: it adds no row, its [ValueError] is
    reported, and the loop goes on with the next file. *)
Theorem unusable_file_is_skipped str_format (args : Namespace)
    (f : json_file) (rest : list json_file) (all_data : list row)
    (skipped : list exn) :
  (content f = Malformed \/ content f = Undecodable
   \/ exists data, content f = Parsed data /\ is_primitive data = true) ->
  exists m,
    load_json_data f = Raises (ValueError m)
    /\ contribution str_format args f = []
    /\ for_json_files str_format args (f :: rest) all_data skipped
       = for_json_files str_format args rest all_data
           (skipped ++ [ValueError m])%list.
Proof.
  intros H.
  assert (L : exists m, load_json_data f = Raises (ValueError m)).
  { unfold load_json_data.
    destruct H as [->|[->|(data & -> & Hp)]]; try (eexists; reflexivity).
    destruct data; try discriminate; eexists; reflexivity. }
  destruct L as [m L]. exists m. split; [exact L|].
  unfold contribution. cbn [for_json_files]. rewrite L. split; reflexivity.
Qed.

(** A file holding the number 42, before a usable file *)
Lemma unusable_file_is_skipped_witness :
  let args := {| separator := "_"; index_format := INDEX_FORMAT;
                 validate_keys := false |} in
  let f := {| stem := "n"; content := Parsed (PyInt 42) |} in
  let g := {| stem := "g"; content := Parsed (PyDict [(KStr "a", PyInt 1)]) |} in
  exists m,
    load_json_data f = Raises (ValueError m)
    /\ contribution py_format args f = []
    /\ for_json_files py_format args [f; g] [] []
       = for_json_files py_format args [g] [] ([] ++ [ValueError m])%list.
Proof.
  intros args f g.
  apply (unusable_file_is_skipped py_format args f [g] [] []).
  right; right. exists (PyInt 42). split; reflexivity.
Defined.

Lemma for_json_files_result str_format args files :
  Forall (fun f => forall e, failure str_format args f = Some e ->
                             is_ValueError e = true) files ->
  forall all_data skipped,
    for_json_files str_format args files all_data skipped
    = ((all_data ++ concat (map (contribution str_format args) files))%list,
       (skipped ++ skipped_of str_format args files)%list, None).
Proof.
  induction 1 as [|f rest Hf _ IH]; intros all_data skipped.
  - simpl. now rewrite !app_nil_r.
  - unfold skipped_of. cbn [map concat flat_map].
    fold (skipped_of str_format args rest).
    destruct (failure str_format args f) as [e|] eqn:E.
    + rewrite (for_json_files_continues _ _ _ _ _ _ e E (Hf e eq_refl)).
      rewrite IH. now rewrite <- !app_assoc.
    + rewrite (for_json_files_next _ _ _ _ _ _ E), IH.
      now rewrite <- !app_assoc.
Qed.

Lemma for_json_files_aborts str_format args before f after e :
  Forall (fun f => forall e, failure str_format args f = Some e ->
                             is_ValueError e = true) before ->
  failure str_format args f = Some e -> is_ValueError e = false ->
  forall all_data skipped,
    for_json_files str_format args (before ++ f :: after)%list all_data skipped
    = ((all_data ++ concat (map (contribution str_format args) before)
          ++ contribution str_format args f)%list,
       (skipped ++ skipped_of str_format args before)%list, Some e).
Proof.
  intros Hb Hf He. induction Hb as [|g rest Hg _ IH]; intros all_data skipped.
  - cbn [app for_json_files map concat]. unfold skipped_of. cbn [flat_map].
    rewrite !app_nil_r. unfold failure, contribution in *.
    destruct (load_json_data f) as [data|e'].
    + rewrite Hf, He. reflexivity.
    + injection Hf as ->. rewrite He. now rewrite app_nil_r.
  - cbn [app map concat]. unfold skipped_of. cbn [flat_map].
    fold (skipped_of str_format args rest).
    destruct (failure str_format args g) as [e'|] eqn:E.
    + rewrite (for_json_files_continues _ _ _ _ _ _ e' E (Hg e' eq_refl)).
      rewrite IH. now rewrite <- !app_assoc.
    + rewrite (for_json_files_next _ _ _ _ _ _ E), IH.
      now rewrite <- !app_assoc.
Qed.

(** ** The run as a whole *)

Lemma parse_arguments_accepts str_format argv idx :
  has_csv_breaking_char (separator argv) = false ->
  str_format (index_format argv) 0 = Rendered idx ->
  parse_arguments str_format argv = Returns argv.
Proof. intros Hs Hf. unfold parse_arguments. now rewrite Hs, Hf. Qed.

Lemma exn_of_caught f : caught_at_writing (exn_of f) = true.
Proof. destruct f; reflexivity. Qed.

(** What [write_csv] raises on a list of rows is caught by [run]: it is
    the failure of the destination or the zero-rows error. *)
Lemma write_csv_list_raises rows dest file e :
  write_csv (Gen rows None) dest = (file, Raises e) ->
  caught_at_writing e = true
  /\ (e = IOError \/ e = ValueError Raised_by_the_library
      \/ (rows = [] /\ e = ValueError No_valid_data_to_write))
  /\ (rows <> [] ->
      opening dest <> None
      \/ (exists n line f, refuses dest n line = Some f)
      \/ closes dest = false).
Proof.
  unfold write_csv, leaving.
  destruct (opening dest) as [f|] eqn:Ho.
  { intros [= _ <-]. split; [apply exn_of_caught|].
    split; [destruct f; auto|]. intros _. left. discriminate. }
  destruct (refuses dest 0 (Header CSV_HEADERS)) as [f|] eqn:Hh.
  { intros [= _ <-].
    split; [destruct (closes dest), f; reflexivity|].
    split; [destruct (closes dest), f; auto|]. intros _. right. left. eauto. }
  cbn [yielded raised].
  destruct (write_rows dest rows [Header CSV_HEADERS] 0)
    as [[file' rc] [f|]] eqn:W.
  { intros [= _ <-].
    split; [destruct (closes dest), f; reflexivity|].
    split; [destruct (closes dest), f; auto|]. intros _. right. left.
    destruct (write_rows_refused _ _ _ _ _ _ _ W) as (n & line & R). eauto. }
  apply write_rows_complete in W as [-> ->].
  destruct (closes dest) eqn:Hc.
  - destruct rows as [|r rows]; [|discriminate]. cbn.
    intros [= _ <-]. split; [reflexivity|]. split; [auto|]. congruence.
  - intros [= _ <-]. split; [reflexivity|]. split; [auto|]. auto.
Qed.

(** When the arguments are accepted and no file fails otherwise than with
    a [ValueError], [run] collects what each file contributes, in the
    order of the files and of their rows.  With no row at all it ends
    with "No valid data found" and writes nothing; otherwise it hands the
    rows to [write_csv] and reports the count it returns, or the error it
    raises, with the lines that were accepted.  On a destination where
    every call succeeds that is the header and one sanitized line per
    row; on a destination that cannot be opened it is the error of the
    opening and no line. *)
Theorem run_writes_every_contribution str_format (argv : Namespace)
    (files : list json_file) (dest : destination) (idx : string) :
  has_csv_breaking_char (separator argv) = false ->
  str_format (index_format argv) 0 = Rendered idx ->
  Forall (fun f => forall e, failure str_format argv f = Some e ->
                             is_ValueError e = true) files ->
  let rows := concat (map (contribution str_format argv) files) in
  let skipped := skipped_of str_format argv files in
  run str_format argv (Returns files) dest
  = match rows with
    | [] => {| ending := No_valid_data_found; output := None;
               skipping := skipped |}
    | _ =>
        {| ending := match snd (write_csv (Gen rows None) dest) with
                     | Returns row_count => Successfully_wrote row_count
                     | Raises e => Error e
                     end;
           output := fst (write_csv (Gen rows None) dest);
           skipping := skipped |}
    end
  /\ (rows <> [] -> opening dest = None ->
      (forall n line, refuses dest n line = None) -> closes dest = true ->
      run str_format argv (Returns files) dest
      = {| ending := Successfully_wrote (length rows);
           output := Some (Header CSV_HEADERS :: map written rows);
           skipping := skipped |})
  /\ (rows <> [] -> forall f, opening dest = Some f ->
      run str_format argv (Returns files) dest
      = {| ending := Error (exn_of f); output := None; skipping := skipped |}).
Proof.
  intros Hs Hf Hfiles rows skipped.
  assert (E : run str_format argv (Returns files) dest
    = match rows with
      | [] => {| ending := No_valid_data_found; output := None;
                 skipping := skipped |}
      | _ =>
          {| ending := match snd (write_csv (Gen rows None) dest) with
                       | Returns row_count => Successfully_wrote row_count
                       | Raises e => Error e
                       end;
             output := fst (write_csv (Gen rows None) dest);
             skipping := skipped |}
      end).
  { unfold run. rewrite (parse_arguments_accepts _ _ _ Hs Hf).
    rewrite (for_json_files_result _ _ _ Hfiles). cbn [app].
    fold rows skipped. destruct rows as [|r rows']; [reflexivity|].
    destruct (write_csv (Gen (r :: rows') None) dest) as [file [n|e]] eqn:W;
      [reflexivity|].
    apply write_csv_list_raises in W as [-> _]. reflexivity. }
  split; [exact E|]. split.
  - intros Hne Ho Hacc Hc. rewrite E.
    destruct rows as [|r rows']; [congruence|].
    rewrite (write_csv_spec _ _ Ho Hacc Hc). reflexivity.
  - intros Hne f Ho. rewrite E.
    destruct rows as [|r rows']; [congruence|].
    unfold write_csv. rewrite Ho. reflexivity.
Qed.

(** Three files: rows, a failure after one row, and an empty array *)
Lemma run_writes_every_contribution_witness :
  let argv := {| separator := "_"; index_format := INDEX_FORMAT;
                 validate_keys := true |} in
  let a := {| stem := "a";
              content := Parsed (PyDict [(KStr "x", PyList [PyInt 1; PyInt 2])]) |} in
  let b := {| stem := "b";
              content := Parsed (PyDict [(KStr "u", PyNone); (KStr "v,", PyNone)]) |} in
  let c := {| stem := "c"; content := Parsed (PyList []) |} in
  run py_format argv (Returns [a; b; c]) reliable
  = {| ending := Successfully_wrote 3;
       output := Some [Header CSV_HEADERS; Record_ "a_x_0000" (PyInt 1);
                       Record_ "a_x_0001" (PyInt 2); Record_ "b_u" PyNone];
       skipping := [ValueError (Key_has_invalid_characters "b_v,")] |}
  /\ run py_format argv (Returns [a; b; c]) unopenable
     = {| ending := Error IOError; output := None;
          skipping := [ValueError (Key_has_invalid_characters "b_v,")] |}.
Proof.
  intros argv a b c.
  assert (H : Forall (fun f => forall e, failure py_format argv f = Some e ->
                                         is_ValueError e = true) [a; b; c]).
  { repeat constructor; intros e [= <-]; reflexivity. }
  pose proof (run_writes_every_contribution py_format argv [a; b; c] reliable
                "0000" eq_refl eq_refl H) as (_ & Hok & _).
  pose proof (run_writes_every_contribution py_format argv [a; b; c] unopenable
                "0000" eq_refl eq_refl H) as (_ & _ & Hno).
  split.
  - refine (eq_trans (Hok _ eq_refl (fun _ _ => eq_refl) eq_refl) eq_refl).
    discriminate.
  - refine (eq_trans (Hno _ OS_error eq_refl) eq_refl). discriminate.
Defined.

(** A file that fails otherwise than with a [ValueError], as a file that
    cannot be opened does, is not skipped: the exception leaves [run]
    uncaught and nothing is written, whatever the files before it
    yielded and whatever the files after it hold; the files skipped
    before it have been reported. *)
Theorem unreadable_file_aborts_run str_format (argv : Namespace)
    (before after : list json_file) (f : json_file) (dest : destination)
    (idx : string) :
  has_csv_breaking_char (separator argv) = false ->
  str_format (index_format argv) 0 = Rendered idx ->
  Forall (fun f => forall e, failure str_format argv f = Some e ->
                             is_ValueError e = true) before ->
  content f = Unreadable ->
  failure str_format argv f = Some IOError
  /\ run str_format argv (Returns (before ++ f :: after)%list) dest
     = {| ending := Uncaught IOError; output := None;
          skipping := skipped_of str_format argv before |}.
Proof.
  intros Hs Hf Hb Hu.
  assert (F : failure str_format argv f = Some IOError).
  { unfold failure, load_json_data. now rewrite Hu. }
  split; [exact F|]. unfold run.
  rewrite (parse_arguments_accepts _ _ _ Hs Hf).
  now rewrite (for_json_files_aborts _ _ _ _ _ _ Hb F eq_refl).
Qed.

(** An unreadable file after a usable file and a skipped one *)
Lemma unreadable_file_aborts_run_witness :
  let argv := {| separator := "_"; index_format := INDEX_FORMAT;
                 validate_keys := false |} in
  let a := {| stem := "a"; content := Parsed (PyDict [(KStr "x", PyInt 1)]) |} in
  let m := {| stem := "m"; content := Malformed |} in
  let u := {| stem := "u"; content := Unreadable |} in
  failure py_format argv u = Some IOError
  /\ run py_format argv (Returns ([a; m] ++ u :: [a])%list) reliable
     = {| ending := Uncaught IOError; output := None;
          skipping := [ValueError Invalid_JSON] |}.
Proof.
  intros argv a m u.
  apply (unreadable_file_aborts_run py_format argv [a; m] [a] u reliable
           "0000"); try reflexivity.
  repeat constructor; intros e [= <-]; reflexivity.
Defined.

(** [run] reports success only after writing at least one row: the count
    is at least 1, the destination was opened and closed, and the lines
    accepted are the header followed by exactly that many lines. *)
Theorem run_success_shape str_format (argv : Namespace)
    (found : result (list json_file)) (dest : destination) (row_count : nat) :
  ending (run str_format argv found dest) = Successfully_wrote row_count ->
  1 <= row_count /\ opening dest = None /\ closes dest = true
  /\ exists rows,
       length rows = row_count
       /\ output (run str_format argv found dest)
          = Some (Header CSV_HEADERS :: map written rows).
Proof.
  unfold run.
  destruct (parse_arguments str_format argv) as [args|e];
    [|destruct (caught_at_initialization e); discriminate].
  destruct found as [files|e];
    [|destruct (caught_at_initialization e); discriminate].
  destruct (for_json_files str_format args files [] [])
    as [[all_data sk] [e|]]; [discriminate|].
  destruct all_data as [|r rows]; [discriminate|].
  destruct (write_csv (Gen (r :: rows) None) dest) as [file [n|e]] eqn:W;
    [|destruct (caught_at_writing e); discriminate].
  cbn. intros [= ->]. revert W. unfold write_csv.
  destruct (opening dest); [discriminate|].
  destruct (refuses dest 0 _); [discriminate|]. cbn [yielded raised].
  destruct (write_rows dest (r :: rows) [Header CSV_HEADERS] 0)
    as [[file' rc] [f|]] eqn:R; [discriminate|].
  apply write_rows_complete in R as [-> ->].
  destruct (closes dest); [|discriminate]. cbn. intros [= <- <-].
  split; [lia|]. split; [reflexivity|]. split; [reflexivity|].
  exists (r :: rows). split; [simpl; lia|reflexivity].
Qed.

(** One file of two rows *)
Lemma run_success_shape_witness :
  1 <= 2 /\ opening reliable = None /\ closes reliable = true
  /\ exists rows,
       length rows = 2
       /\ output (run py_format
                    {| separator := "_"; index_format := INDEX_FORMAT;
                       validate_keys := false |}
                    (Returns [{| stem := "a";
                                 content := Parsed (PyList
                                   [PyDict [(KStr "x", PyInt 1)];
                                    PyDict [(KStr "x", PyInt 2)]]) |}])
                    reliable)
          = Some (Header CSV_HEADERS :: map written rows).
Proof.
  exact (run_success_shape py_format
           {| separator := "_"; index_format := INDEX_FORMAT;
              validate_keys := false |}
           (Returns [{| stem := "a";
                        content := Parsed (PyList
                          [PyDict [(KStr "x", PyInt 1)];
                           PyDict [(KStr "x", PyInt 2)]]) |}])
           reliable 2 eq_refl).
Defined.

(** An error that [run] reports from the writing step is a failure of the
    destination: it could not be opened, it refused a line, or it could
    not be closed.  The zero-rows error of [write_csv] cannot occur
    there, since [run] stops before writing when no row was collected. *)
Theorem run_error_is_a_destination_failure str_format (argv : Namespace)
    (found : result (list json_file)) (dest : destination) (e : exn) :
  ending (run str_format argv found dest) = Error e ->
  e <> ValueError No_valid_data_to_write
  /\ (e = IOError \/ e = ValueError Raised_by_the_library)
  /\ (opening dest <> None
      \/ (exists n line f, refuses dest n line = Some f)
      \/ closes dest = false).
Proof.
  unfold run.
  destruct (parse_arguments str_format argv) as [args|e'];
    [|destruct (caught_at_initialization e'); discriminate].
  destruct found as [files|e'];
    [|destruct (caught_at_initialization e'); discriminate].
  destruct (for_json_files str_format args files [] [])
    as [[all_data sk] [e'|]]; [discriminate|].
  destruct all_data as [|r rows]; [discriminate|].
  destruct (write_csv (Gen (r :: rows) None) dest) as [file [n|e']] eqn:W;
    [discriminate|].
  apply write_csv_list_raises in W as (Hc & He & Hd). rewrite Hc. cbn.
  intros [= <-].
  assert (Hne : r :: rows <> []) by discriminate.
  destruct He as [->|[->|[Hnil _]]]; try contradiction;
    (split; [discriminate|]); (split; [auto|]); apply Hd, Hne.
Qed.

(** One file of one row, on a destination that cannot be opened and on a
    destination that refuses the row *)
Lemma run_error_is_a_destination_failure_witness :
  let argv := {| separator := "_"; index_format := INDEX_FORMAT;
                 validate_keys := false |} in
  let files := Returns [{| stem := "a";
                           content := Parsed (PyDict [(KStr "x", PyInt 1)]) |}] in
  let picky := {| opening := None;
                  refuses := fun n _ => if (n =? 1)%nat then Some Value_error
                                        else None;
                  closes := true |} in
  (ending (run py_format argv files unopenable) = Error IOError
   /\ IOError <> ValueError No_valid_data_to_write)
  /\ ending (run py_format argv files picky)
     = Error (ValueError Raised_by_the_library)
  /\ output (run py_format argv files picky) = Some [Header CSV_HEADERS]
  /\ ValueError Raised_by_the_library <> ValueError No_valid_data_to_write.
Proof.
  intros argv files picky.
  split; [split; [reflexivity|]|split; [reflexivity|split; [reflexivity|]]].
  - exact (proj1 (run_error_is_a_destination_failure py_format argv files
                    unopenable IOError eq_refl)).
  - exact (proj1 (run_error_is_a_destination_failure py_format argv files
                    picky (ValueError Raised_by_the_library) eq_refl)).
Defined.

(** A field whose composed key holds a comma, after a field that passes *)
Lemma object_keys_are_validated_witness :
  exists e,
    flatten_json py_format
      (PyDict ([(KStr "a", PyInt 1)] ++ (KStr "b,c", PyInt 2) :: [])%list)
      "f" "_" INDEX_FORMAT true
    = flatten_json py_format (PyDict [(KStr "a", PyInt 1)]) "f" "_"
        INDEX_FORMAT true ;; raise e
    /\ is_key_validation_error e = true
    /\ e = ValueError (Key_has_invalid_characters "f_b,c").
Proof.
  exact (object_keys_are_validated py_format [(KStr "a", PyInt 1)] "b,c"
           (PyInt 2) [] "f" "_" INDEX_FORMAT eq_refl).
Defined.

(** A separator that holds a comma without being one *)
Lemma breaking_separator_rejected_witness :
  let args := {| separator := "a,b"; index_format := INDEX_FORMAT;
                 validate_keys := false |} in
  parse_arguments py_format args
  = Raises (ValueError Separator_cannot_be_empty_a_comma_or_a_newline)
  /\ run py_format args
       (Returns [{| stem := "f";
                    content := Parsed (PyDict [(KStr "a", PyInt 1)]) |}])
       reliable
     = {| ending := Initialization_failed
                      (ValueError Separator_cannot_be_empty_a_comma_or_a_newline);
          output := None; skipping := [] |}.
Proof.
  intros args.
  exact (breaking_separator_rejected py_format args _ reliable eq_refl).
Defined.

(** The index format is tried on index 0 before any file is read.  When
    that raises a [ValueError], [run] ends with "Initialization failed"
    and an invalid-index-format error; when it raises anything else, the
    exception is caught neither by [parse_arguments] nor by [run], which
    ends with it uncaught.  Nothing is written in either case. *)
Theorem index_format_is_tried_first str_format (argv : Namespace)
    (found : result (list json_file)) (dest : destination) (e : exn) :
  has_csv_breaking_char (separator argv) = false ->
  str_format (index_format argv) 0 = FormatRaises e ->
  (is_ValueError e = true ->
   run str_format argv found dest
   = {| ending := Initialization_failed (ValueError Invalid_index_format);
        output := None; skipping := [] |})
  /\ (caught_at_initialization e = false ->
      run str_format argv found dest
      = {| ending := Uncaught e; output := None; skipping := [] |}).
Proof.
  intros Hs Hf. unfold run, parse_arguments. rewrite Hs, Hf.
  split; intros He; destruct e; try discriminate; reflexivity.
Qed.

(** The format ["{"] raises a [ValueError], the format ["{1}"] an
    [IndexError] *)
Lemma index_format_is_tried_first_witness :
  let files := Returns [{| stem := "f";
                           content := Parsed (PyDict [(KStr "a", PyInt 1)]) |}] in
  run py_format {| separator := "_"; index_format := "{";
                   validate_keys := false |} files reliable
  = {| ending := Initialization_failed (ValueError Invalid_index_format);
       output := None; skipping := [] |}
  /\ run py_format {| separator := "_"; index_format := "{1}";
                      validate_keys := false |} files reliable
     = {| ending := Uncaught IndexError; output := None; skipping := [] |}.
Proof.
  intros files. split.
  - exact (proj1 (index_format_is_tried_first py_format
                    {| separator := "_"; index_format := "{";
                       validate_keys := false |} files reliable
                    (ValueError Format_string_error) eq_refl eq_refl) eq_refl).
  - exact (proj2 (index_format_is_tried_first py_format
                    {| separator := "_"; index_format := "{1}";
                       validate_keys := false |} files reliable
                    IndexError eq_refl eq_refl) eq_refl).
Defined.

(** ** Composition *)

(** The fields of an object are flattened one after the other, each on its
    own: the flattening of an object is that of its first fields followed,
    unless that raised, by that of the remaining fields.  Likewise for
    the objects of a top-level array in [process_json_data]. *)
Theorem flattening_composes str_format
    (fields1 fields2 : list (pykey * pyvalue)) (items1 items2 : list pyvalue)
    (parent_key separator index_format : string) (validate_keys : bool) :
  flatten_json str_format (PyDict (fields1 ++ fields2)%list) parent_key
    separator index_format validate_keys
  = flatten_json str_format (PyDict fields1) parent_key separator index_format
      validate_keys
    ;; flatten_json str_format (PyDict fields2) parent_key separator
         index_format validate_keys
  /\ process_json_data str_format (PyList (items1 ++ items2)%list) parent_key
       separator index_format validate_keys
     = process_json_data str_format (PyList items1) parent_key separator
         index_format validate_keys
       ;; process_json_data str_format (PyList items2) parent_key separator
            index_format validate_keys.
Proof.
  split.
  - now rewrite !flatten_json_dict, gfor_app.
  - now rewrite !process_json_data_list, gfor_app.
Qed.

(** ** File discovery *)

Lemma lower_json_extension_cases :
  lower ".JSON" = JSON_EXTENSION /\ lower ".Json" = JSON_EXTENSION
  /\ lower ".json" = JSON_EXTENSION.
Proof. repeat split. Qed.

(** [get_json_files], case by case: a path that does not exist, a file
    with another suffix and a directory where the pattern [*.json] lists
    nothing raise [FileNotFoundError]; a path that exists and is neither a
    file nor a directory raises [ValueError]; a file whose suffix is
    [.json] in any letter case is returned alone; a directory is answered
    by what the pattern lists.  So the list returned is never empty. *)
Theorem get_json_files_outcomes (path : Path) :
  (path_exists path = false ->
   get_json_files path = inl Path_does_not_exist)
  /\ (path_exists path = true -> path_is_file path = true ->
      lower (path_suffix path) = JSON_EXTENSION ->
      get_json_files path = inr [path_itself path])
  /\ (path_exists path = true -> path_is_file path = true ->
      lower (path_suffix path) <> JSON_EXTENSION ->
      get_json_files path = inl Not_a_json_file)
  /\ (path_exists path = true -> path_is_file path = false ->
      path_is_dir path = true -> path_glob path <> [] ->
      get_json_files path = inr (path_glob path))
  /\ (path_exists path = true -> path_is_file path = false ->
      path_is_dir path = true -> path_glob path = [] ->
      get_json_files path = inl No_JSON_files_found)
  /\ (path_exists path = true -> path_is_file path = false ->
      path_is_dir path = false ->
      get_json_files path = inl Invalid_path)
  /\ (forall files, get_json_files path = inr files -> files <> [])
  /\ (forall e,
        get_json_files path = inl e ->
        (is_FileNotFoundError e = false <->
         path_exists path = true /\ path_is_file path = false
         /\ path_is_dir path = false)).
Proof.
  unfold get_json_files.
  destruct (path_exists path), (path_is_file path), (path_is_dir path),
    (String.eqb (lower (path_suffix path)) JSON_EXTENSION) eqn:E,
    (path_glob path) as [|f fs]; cbn;
    match type of E with
    | _ = true => apply String.eqb_eq in E
    | _ = false => apply String.eqb_neq in E
    end;
    repeat match goal with
           | |- _ /\ _ => split
           end;
    intros;
    repeat match goal with
           | H : inr _ = inr _ |- _ => injection H as <-
           | H : inl _ = inl _ |- _ => injection H as <-
           end;
    try discriminate; try contradiction; try congruence; try reflexivity;
    split; intros;
    repeat match goal with
           | H : _ /\ _ |- _ => destruct H
           end;
    try discriminate; repeat split.
Qed.

(** A file named with an upper-case extension, and a directory of two
    files *)
Lemma get_json_files_outcomes_witness :
  let f := {| stem := "DATA"; content := Malformed |} in
  let g := {| stem := "g"; content := Parsed (PyDict []) |} in
  let file := {| path_exists := true; path_is_file := true;
                 path_is_dir := false; path_suffix := ".JSON";
                 path_itself := f; path_glob := [] |} in
  let dir := {| path_exists := true; path_is_file := false;
                path_is_dir := true; path_suffix := "";
                path_itself := f; path_glob := [f; g] |} in
  let empty_dir := {| path_exists := true; path_is_file := false;
                      path_is_dir := true; path_suffix := "";
                      path_itself := f; path_glob := [] |} in
  get_json_files file = inr [f]
  /\ get_json_files dir = inr [f; g]
  /\ get_json_files empty_dir = inl No_JSON_files_found.
Proof.
  intros f g file dir empty_dir. split; [|split].
  - exact (proj1 (proj2 (get_json_files_outcomes file)) eq_refl eq_refl eq_refl).
  - refine (proj1 (proj2 (proj2 (proj2 (get_json_files_outcomes dir))))
              eq_refl eq_refl eq_refl _).
    discriminate.
  - exact (proj1 (proj2 (proj2 (proj2 (proj2
             (get_json_files_outcomes empty_dir)))))
             eq_refl eq_refl eq_refl eq_refl).
Defined.

(** ** Distinct keys within an array *)

Lemma str_decodes i :
  option_map Nat.of_uint (NilEmpty.uint_of_string (str i)) = Some i.
Proof.
  unfold str. rewrite NilEmpty.usu. simpl. f_equal.
  apply DecimalNat.Unsigned.of_to.
Qed.

Lemma zero_padding_decodes k s n :
  option_map Nat.of_uint (NilEmpty.uint_of_string s) = Some n ->
  option_map Nat.of_uint (NilEmpty.uint_of_string (fill k "0" ++ s)) = Some n.
Proof.
  intros H. induction k as [|k IH]; [exact H|].
  cbn [fill append NilEmpty.uint_of_string].
  destruct (NilEmpty.uint_of_string (fill k "0" ++ s)) as [d|];
    [|discriminate].
  exact IH.
Qed.

Lemma default_segment_inj i j :
  pad_left "0" 4 (str i) = pad_left "0" 4 (str j) -> i = j.
Proof.
  intros H.
  pose proof (zero_padding_decodes (4 - String.length (str i)) _ _
                (str_decodes i)) as Hi.
  pose proof (zero_padding_decodes (4 - String.length (str j)) _ _
                (str_decodes j)) as Hj.
  unfold pad_left in H. rewrite H, Hj in Hi. now injection Hi.
Qed.

Lemma append_cancel_l (s a b : string) : s ++ a = s ++ b -> a = b.
Proof.
  induction s as [|c s IH]; simpl; [auto|]. intros [= H]. auto.
Qed.

Lemma idx_key_inj parent_key separator a b :
  idx_key parent_key separator a = idx_key parent_key separator b -> a = b.
Proof.
  unfold idx_key. destruct (truthy parent_key); [|auto].
  intros H. now apply append_cancel_l, append_cancel_l in H.
Qed.

Lemma map_fst_enumerate_from {A} (l : list A) start :
  map fst (enumerate_from start l) = seq start (length l).
Proof.
  revert start. induction l as [|x rest IH]; intros start; [reflexivity|].
  unfold enumerate_from in *. simpl. now rewrite IH.
Qed.

Lemma NoDup_map_seq {B} (f : nat -> B) start len :
  (forall i j, f i = f j -> i = j) -> NoDup (map f (seq start len)).
Proof.
  intros Hinj. revert start. induction len as [|len IH]; intros start; simpl.
  - constructor.
  - constructor; [|apply IH]. intros H. apply in_map_iff in H as (j & Hj & Hin).
    apply Hinj in Hj. subst j. apply in_seq in Hin. lia.
Qed.

(** With the default index format the elements of an array of primitives
    get pairwise distinct keys, however many they are: one row per
    element, and no key twice. *)
Theorem array_elements_get_distinct_keys (items : list pyvalue)
    (parent_key separator : string) (validate_keys : bool) :
  Forall (fun item => is_primitive item = true) items ->
  let rows := flatten_json py_format (PyList items) parent_key separator
                INDEX_FORMAT validate_keys in
  raised rows = None
  /\ map snd (yielded rows) = items
  /\ NoDup (map fst (yielded rows)).
Proof.
  intros Hp rows. subst rows. rewrite flatten_json_list. unfold enumerate.
  rewrite (gfor_primitives py_format parent_key separator INDEX_FORMAT
             validate_keys items Hp 0)
    by (intros; apply default_index_format_never_escapes).
  cbn [raised yielded]. split; [reflexivity|]. rewrite !map_map. cbn [fst snd].
  split.
  - unfold enumerate_from. clear Hp. generalize 0 as start.
    induction items as [|x rest IH]; intros start; [reflexivity|].
    simpl. now rewrite IH.
  - rewrite <- (map_map fst (fun i =>
      idx_key parent_key separator (segment py_format INDEX_FORMAT i))).
    rewrite map_fst_enumerate_from. apply NoDup_map_seq.
    intros i j H. apply idx_key_inj in H. unfold segment in H.
    rewrite !default_index_format in H. now apply default_segment_inj.
Qed.

(** Three elements *)
Lemma array_elements_get_distinct_keys_witness :
  NoDup (map fst (yielded (flatten_json py_format
                             (PyList [PyInt 1; PyInt 1; PyNone]) "f" "_"
                             INDEX_FORMAT false))).
Proof.
  refine (proj2 (proj2 (array_elements_get_distinct_keys
                          [PyInt 1; PyInt 1; PyNone] "f" "_" false _))).
  repeat constructor.
Defined.

(** ** Key composition in the two loops *)

Lemma enumerate_from_app {A} (l1 l2 : list A) start :
  enumerate_from start (l1 ++ l2)%list
  = (enumerate_from start l1 ++ enumerate_from (start + length l1) l2)%list.
Proof.
  revert start. induction l1 as [|x rest IH]; intros start.
  - simpl. now rewrite Nat.add_0_r.
  - unfold enumerate_from in *. cbn [app length seq combine].
    rewrite IH. now rewrite Nat.add_succ_r.
Qed.

(** C7, as the code has it: the key under which a child is flattened is
    the child identifier [c] alone when the parent key is empty, and the
    parent key, the separator and [c] otherwise; so it is for the field
    [c] of any object, when validation is off or the composed key passes
    it (a composed key that fails it is the one the error names), and for
    the element of any array whose index renders as [c].  So
    a flat JSON object (every field a primitive) flattened under a
    non-empty prefix, with validation off or with keys that all pass it,
    returns after one row per field, in order, with key
    [prefix + separator + fieldname]. *)
Theorem key_composition str_format (p s c : string) (child : pyvalue)
    (fields_before fields_after : list (pykey * pyvalue))
    (items_before items_after : list pyvalue)
    (fields : list (string * pyvalue)) (index_format : string)
    (validate_keys : bool) :
  let composed := match p with
                  | EmptyString => c
                  | _ => p ++ s ++ c
                  end in
  ((validate_keys = true -> key_passes composed = true) ->
   flatten_json str_format
     (PyDict (fields_before ++ (KStr c, child) :: fields_after)%list)
     p s index_format validate_keys
   = flatten_json str_format (PyDict fields_before) p s index_format
       validate_keys
     ;; flatten_json str_format child composed s index_format validate_keys
     ;; flatten_json str_format (PyDict fields_after) p s index_format
          validate_keys)
  /\ (validate_keys = true -> key_passes composed = false ->
      flatten_json str_format
        (PyDict (fields_before ++ (KStr c, child) :: fields_after)%list)
        p s index_format validate_keys
      = flatten_json str_format (PyDict fields_before) p s index_format
          validate_keys
        ;; raise (ValueError
                    (if (MAX_KEY_LENGTH <? String.length composed)%nat
                     then Key_too_long composed
                     else Key_has_invalid_characters composed)))
  /\ (str_format index_format (length items_before) = Rendered c ->
      flatten_json str_format (PyList (items_before ++ child :: items_after)%list)
        p s index_format validate_keys
      = flatten_json str_format (PyList items_before) p s index_format
          validate_keys
        ;; flatten_json str_format child composed s index_format validate_keys
        ;; gfor (enumerate_from (S (length items_before)) items_after)
             (list_step str_format p s index_format validate_keys))
  /\ (p <> "" ->
      Forall (fun f => is_primitive (snd f) = true) fields ->
      (validate_keys = true ->
       Forall (fun f => key_passes (p ++ s ++ fst f) = true) fields) ->
      let rows :=
        flatten_json str_format (object_of fields) p s index_format
          validate_keys in
      rows = Gen (map (fun f => (p ++ s ++ fst f, snd f)) fields) None
      /\ length (yielded rows) = length fields).
Proof.
  intros composed.
  assert (Hc : composed = new_key p s c) by (destruct p; reflexivity).
  split; [|split; [|split]].
  - intros Hv. rewrite !flatten_json_dict, gfor_app.
    cbn [gfor fold_right dict_step]. rewrite <- Hc.
    destruct validate_keys; [|reflexivity].
    specialize (Hv eq_refl). unfold key_passes in Hv.
    apply andb_true_iff in Hv as [Hlen Hchr].
    apply negb_true_iff in Hlen, Hchr. simpl andb.
    now rewrite Hlen, Hchr.
  - intros -> Hk. rewrite !flatten_json_dict, gfor_app. f_equal.
    cbn [gfor fold_right dict_step]. rewrite <- Hc. simpl andb.
    unfold key_passes in Hk.
    destruct (MAX_KEY_LENGTH <? String.length composed)%nat; [reflexivity|].
    simpl in Hk. apply negb_false_iff in Hk. now rewrite Hk.
  - intros Hr. rewrite !flatten_json_list. unfold enumerate.
    rewrite enumerate_from_app, gfor_app. cbn [Nat.add].
    unfold enumerate_from at 2. cbn [length seq combine gfor fold_right].
    unfold list_step at 2. rewrite Hr. unfold idx_key. fold (new_key p s c).
    rewrite <- Hc. reflexivity.
  - intros Hp Hprim Hvalid rows.
    assert (E : rows = Gen (map (fun f => (p ++ s ++ fst f, snd f)) fields) None).
    { subst rows. rewrite flatten_json_flat_object; [|assumption|].
      - f_equal. apply map_ext. intros f. now rewrite new_key_nonempty.
      - intros Hv. eapply Forall_impl; [|apply Hvalid, Hv].
        intros f Hf. now rewrite new_key_nonempty. }
    split; [exact E|]. rewrite E. simpl. apply length_map.
Qed.

(** The field ["c"] between two fields, the second element of an array,
    and a flat object of three fields, under the prefix ["f"] with
    validation on *)
Lemma key_composition_witness :
  let fields := [("a", PyInt 1); ("b", PyStr "x"); ("c", PyNone)] in
  flatten_json py_format
    (PyDict ([(KStr "a", PyInt 1)] ++ (KStr "c", PyList [PyInt 2])
             :: [(KStr "d", PyInt 3)])%list)
    "f" "_" INDEX_FORMAT true
  = flatten_json py_format (PyDict [(KStr "a", PyInt 1)]) "f" "_" INDEX_FORMAT
      true
    ;; flatten_json py_format (PyList [PyInt 2]) "f_c" "_" INDEX_FORMAT true
    ;; flatten_json py_format (PyDict [(KStr "d", PyInt 3)]) "f" "_"
         INDEX_FORMAT true
  /\ flatten_json py_format (PyList ([PyInt 1] ++ PyDict [(KStr "k", PyInt 2)]
                                     :: [PyInt 3])%list)
       "" "_" INDEX_FORMAT true
     = flatten_json py_format (PyList [PyInt 1]) "" "_" INDEX_FORMAT true
       ;; flatten_json py_format (PyDict [(KStr "k", PyInt 2)]) "0001" "_"
            INDEX_FORMAT true
       ;; gfor (enumerate_from 2 [PyInt 3])
            (list_step py_format "" "_" INDEX_FORMAT true)
  /\ flatten_json py_format
       (PyDict ([(KStr "a", PyInt 1)] ++ (KStr "c,", PyInt 2) :: [])%list)
       "f" "_" INDEX_FORMAT true
     = flatten_json py_format (PyDict [(KStr "a", PyInt 1)]) "f" "_"
         INDEX_FORMAT true
       ;; raise (ValueError (Key_has_invalid_characters "f_c,"))
  /\ flatten_json py_format (object_of fields) "f" "_" INDEX_FORMAT true
     = Gen [("f_a", PyInt 1); ("f_b", PyStr "x"); ("f_c", PyNone)] None
  /\ length (yielded (flatten_json py_format (object_of fields) "f" "_"
                        INDEX_FORMAT true)) = 3.
Proof.
  intros fields. split; [|split; [|split]].
  - exact (proj1 (key_composition py_format "f" "_" "c" (PyList [PyInt 2])
                    [(KStr "a", PyInt 1)] [(KStr "d", PyInt 3)] [] [] []
                    INDEX_FORMAT true) (fun _ => eq_refl)).
  - exact (proj1 (proj2 (proj2 (key_composition py_format "" "_" "0001"
                           (PyDict [(KStr "k", PyInt 2)]) [] []
                           [PyInt 1] [PyInt 3] [] INDEX_FORMAT true))) eq_refl).
  - exact (proj1 (proj2 (key_composition py_format "f" "_" "c," (PyInt 2)
                           [(KStr "a", PyInt 1)] [] [] [] []
                           INDEX_FORMAT true)) eq_refl eq_refl).
  - apply (proj2 (proj2 (proj2 (key_composition py_format "f" "_" "a" PyNone
                           [] [] [] [] fields INDEX_FORMAT true)))).
    + discriminate.
    + repeat constructor.
    + intros _. repeat constructor.
Defined.

(** C7 as stated fails: with key validation on, the flat object
    [{"a,": 1}] under the prefix ["f"] yields no row for its one field;
    the composed key ["f_a,"] is rejected. *)
Lemma key_composition_counterexample :
  let rows := flatten_json py_format (object_of [("a,", PyInt 1)]) "f" "_"
                INDEX_FORMAT true in
  rows = Gen [] (Some (ValueError (Key_has_invalid_characters "f_a,")))
  /\ length (yielded rows) <> length [("a,", PyInt 1)].
Proof. split; [reflexivity|discriminate]. Qed.
